(** * PE4.3: a Telegram text-to-speech bot

    A shallow embedding of [voice.py] (voice directory cache, the two
    outbound calls with their retry loops) and of the pagination helper of
    [main.py], followed by the properties of the specification.

    Conventions of the embedding.
    - Python [int] is [Z]; [//] is [Z.div] (both round towards minus
      infinity); [float] seconds ([time.time()], [time.sleep], the cache
      TTL) are exact rationals [Q].
    - Python [str] is [string], one character of the model per character
      of the Python string.
    - A value of type [Any] is a [pyval]; [None] is [PNone], and
      [d.get(k)] on a missing key is [PNone] as well.
    - An exception is a constructor of [exn]; fallible code returns a
      [result].  Code that touches the clock, the network, the log or the
      module-level cache lives in the monad [M], which keeps the world
      also when an exception is raised (as Python does).
    - The network is an oracle: the n-th request ever sent is answered by
      [net n request].  The body of an answer to [GET /voices] is any
      JSON value, or no JSON at all; reading it raises where Python
      does.  *)

From Stdlib Require Import ZArith QArith Bool String Ascii List Lia.
From Stdlib Require Import DecimalString Sorted.
From Stdlib Require Lqa.
From Stdlib Require DecimalZ DecimalPos.
Import ListNotations.

#[local] Set Warnings "-register-all".
Local Open Scope string_scope.
Local Open Scope list_scope.
Local Open Scope Z_scope.

(* ===================================================================== *)
(** ** Python values, exceptions, slices *)
(* ===================================================================== *)

Module Py.

(** Values of type [Any], as [json] decoding and dict literals make them. *)
Inductive pyval : Type :=
| PNone
| PBool (b : bool)
| PInt (z : Z)
| PFloat (q : Q)
| PStr (s : string)
| PList (l : list pyval)
| PDict (d : list (string * pyval)).

(** [bool(v)]: what [or], [if] and [not] test. *)
Definition truthy (v : pyval) : bool :=
  match v with
  | PNone => false
  | PBool b => b
  | PInt z => negb (z =? 0)
  | PFloat q => negb (Qeq_bool q 0)
  | PStr s => negb (String.eqb s "")
  | PList l => match l with [] => false | _ => true end
  | PDict d => match d with [] => false | _ => true end
  end.

(** [a or b] *)
Definition py_or (a b : pyval) : pyval := if truthy a then a else b.

(** A [Dict[str, Any]]: its items in insertion order, keys distinct. *)
Definition dict := list (string * pyval).

(** [d.get(k)] *)
Fixpoint dict_get (d : dict) (k : string) : pyval :=
  match d with
  | [] => PNone
  | (k', v) :: rest => if String.eqb k k' then v else dict_get rest k
  end.

(** Exceptions: those of [voice.py], those of [httpx] that the retry loops
    tell apart, [ZeroDivisionError] for [//], and those that reading a
    decoded body raises. *)
Inductive exn : Type :=
| VoiceServiceError (msg : string)
| RateLimitError (msg : string)        (* subclass of VoiceServiceError *)
| InvalidInputError (msg : string)     (* subclass of VoiceServiceError *)
| HTTPStatusError (status : Z)         (* subclass of httpx.HTTPError *)
| HTTPError                            (* any other httpx.HTTPError *)
| ZeroDivisionError
| JSONDecodeError                      (* subclass of ValueError *)
| AttributeError
| TypeError.

Inductive result (A : Type) : Type :=
| Ok (a : A)
| Raise (e : exn).
Arguments Ok {A} a.
Arguments Raise {A} e.

(** [str(n)] for an [int], as an f-string inserts it. *)
Definition str_of_int (n : Z) : string := NilZero.string_of_int (Z.to_int n).

(** Index adjustment of a slice with step 1: a negative bound counts from
    the end, and both bounds are clamped to [0 .. len]. *)
Definition adjust_index (len i : Z) : Z :=
  if i <? 0 then Z.max 0 (i + len) else Z.min i len.

(** [l[start:stop]] *)
Definition py_slice {A : Type} (l : list A) (start stop : Z) : list A :=
  let len := Z.of_nat (length l) in
  let lo := adjust_index len start in
  let hi := adjust_index len stop in
  if lo <? hi then firstn (Z.to_nat (hi - lo)) (skipn (Z.to_nat lo) l) else [].

(** [l[start:]] *)
Definition py_slice_from {A : Type} (l : list A) (start : Z) : list A :=
  py_slice l start (Z.of_nat (length l)).

(** [float] comparison [a > b] *)
Definition Qgt_bool (a b : Q) : bool := negb (Qle_bool a b).

(** [for x in v]: the elements of a list, the characters of a string, the
    keys of a dict; no other value of JSON can be iterated. *)
Definition py_iter (v : pyval) : result (list pyval) :=
  match v with
  | PList l => Ok l
  | PStr s => Ok (map (fun c => PStr (String c "")) (list_ascii_of_string s))
  | PDict d => Ok (map (fun kv => PStr (fst kv)) d)
  | _ => Raise TypeError
  end.

End Py.
Import Py.

(* ===================================================================== *)
(** ** The voice record *)
(* ===================================================================== *)

(** The dict [{"id": .., "name": .., "labels": ..}] that [get_voices]
    builds and [_paginate_buttons] reads: always these three keys. *)
Record Voice : Type := mkVoice {
  id : pyval;
  name : pyval;
  labels : pyval
}.

(* ===================================================================== *)
(** ** main.py: pagination *)
(* ===================================================================== *)

Module Main.

Record InlineKeyboardButton : Type := mkButton {
  text : pyval;
  callback_data : string
}.

Section Pagination.

(** Python's [str()] on an arbitrary value, which the f-string of a
    [pick:] payload applies to the voice id. *)
Variable py_str : pyval -> string.

(** [voices[start:end]] of lines 28-30. *)
Definition page_voices (voices : list Voice) (page page_size : Z)
  : list Voice :=
  let start := page * page_size in
  let end_ := start + page_size in
  py_slice voices start end_.

(** One row per voice of the page, lines 32-34. *)
Definition pick_row (v : Voice) : list InlineKeyboardButton :=
  let label := py_or (name v) (id v) in
  [mkButton label ("pick:" ++ py_str (id v))].

(** Line 36; the caller has checked [page_size <> 0]. *)
Definition total_pages_of (n page_size : Z) : Z :=
  Z.max 1 ((n + page_size - 1) / page_size).

Definition prev_button (page : Z) : InlineKeyboardButton :=
  mkButton (PStr "⟵ Назад") ("page:" ++ str_of_int (page - 1)).

Definition next_button (page : Z) : InlineKeyboardButton :=
  mkButton (PStr "Далее ⟶") ("page:" ++ str_of_int (page + 1)).

Definition refresh_button : InlineKeyboardButton :=
  mkButton (PStr "Обновить") "refresh".

(** The navigation row, lines 37-42. *)
Definition nav_row (page total_pages : Z) : list InlineKeyboardButton :=
  let nav := [] in
  let nav := if page >? 0 then nav ++ [prev_button page] else nav in
  let nav := if page + 1 <? total_pages then nav ++ [next_button page]
             else nav in
  nav ++ [refresh_button].

Definition _paginate_buttons (voices : list Voice) (page : Z) (page_size : Z)
  : result (list (list InlineKeyboardButton) * Z) :=
  let buttons := map pick_row (page_voices voices page page_size) in
  if page_size =? 0 then Raise ZeroDivisionError
  else
    let total_pages :=
      total_pages_of (Z.of_nat (length voices)) page_size in
    let nav := nav_row page total_pages in
    Ok (buttons ++ [nav], total_pages).

End Pagination.

(** The default [page_size = 8] of the signature. *)
Definition default_page_size : Z := 8.

End Main.

(* ===================================================================== *)
(** ** voice.py: the world, the cache and the two outbound calls *)
(* ===================================================================== *)

Module voice.

(** The fields of [config.Settings] that [voice.py] reads. *)
Record Settings : Type := mkSettings {
  elevenlabs_api_key : string;
  default_voice_id : string
}.

(** *** The cache object (lines 28-46) *)

Record _VoicesCache : Type := mkCache {
  value : option (list Voice);
  ts : Q;
  ttl : Q
}.

(** [_VoicesCache.get], reading the clock as [now]. *)
Definition cache_get (self : _VoicesCache) (now : Q) : option (list Voice) :=
  match value self with
  | None => None
  | Some v => if Qgt_bool (now - ts self) (ttl self) then None else Some v
  end.

(** [_VoicesCache.set], reading the clock as [now]. *)
Definition cache_set (self : _VoicesCache) (v : list Voice) (now : Q)
  : _VoicesCache :=
  {| value := Some v; ts := now; ttl := ttl self |}.

(** [_voices_cache = _VoicesCache()] *)
Definition _voices_cache : _VoicesCache :=
  {| value := None; ts := 0; ttl := 600 |}.

(** *** HTTP *)

Record Request : Type := mkRequest {
  method : string;
  url : string;
  headers : list (string * string);
  json_body : pyval
}.

(** A response: [resp.json()] is what [get_voices] reads, [None] when the
    body is not JSON and the call raises; [resp.content] is what
    [synthesize_speech] returns. *)
Record Response : Type := mkResponse {
  status_code : Z;
  json : option pyval;
  content : list Byte.byte
}.

(** One exchange with the provider: how long it took and what came back,
    [None] when httpx raised a transport error (timeout, connection). *)
Record Exchange : Type := mkExchange {
  took : Q;
  answer : option Response
}.

(** *** The world *)

Inductive Event : Type :=
| Slept (seconds : Q)
| Sent (r : Request).

Inductive Level : Type := INFO | WARNING | ERROR.

Inductive LogArg : Type :=
| ArgInt (n : Z)
| ArgErr (e : option exn).

Record World : Type := mkWorld {
  cache : _VoicesCache;        (* the module-level _voices_cache *)
  clock : Q;                   (* time.time() *)
  served : nat;                (* requests sent so far *)
  trace : list Event;          (* sleeps and requests, oldest first *)
  log : list (Level * string * LogArg)
}.

Definition M (A : Type) : Type := World -> result A * World.

Definition ret {A : Type} (a : A) : M A := fun w => (Ok a, w).

Definition bind {A B : Type} (c : M A) (k : A -> M B) : M B :=
  fun w =>
    match c w with
    | (Ok a, w') => k a w'
    | (Raise e, w') => (Raise e, w')
    end.

Definition raise {A : Type} (e : exn) : M A := fun w => (Raise e, w).

(** [try: body except ...]: [handler e] is the clause that matches [e],
    [None] when no clause does and [e] propagates. *)
Definition try_except {A : Type} (body : M A) (handler : exn -> option (M A))
  : M A :=
  fun w =>
    match body w with
    | (Ok a, w') => (Ok a, w')
    | (Raise e, w') =>
        match handler e with
        | Some h => h w'
        | None => (Raise e, w')
        end
    end.

Declare Scope py_scope.
Delimit Scope py_scope with py.
Notation "x <- c ;; k" := (bind c (fun x => k))
  (at level 61, c at next level, right associativity) : py_scope.
Notation "c ;;; k" := (bind c (fun _ => k))
  (at level 61, right associativity) : py_scope.
Local Open Scope py_scope.

(** How a loop body ends: [return b], end of body or [continue], [break]. *)
Inductive Control (B : Type) : Type :=
| Return (b : B)
| Continue
| Break.
Arguments Return {B} b.
Arguments Continue {B}.
Arguments Break {B}.

(** [for x in items: body], with the local variables the body assigns
    ([last_err]) carried as [s].  [None] when the loop ends without
    [return]. *)
Fixpoint for_loop {A S B : Type} (items : list A)
  (body : A -> S -> M (Control B * S)) (s : S) : M (option B * S) :=
  match items with
  | [] => ret (None, s)
  | x :: rest =>
      r <- body x s ;;
      match r with
      | (Return b, s') => ret (Some b, s')
      | (Continue, s') => for_loop rest body s'
      | (Break, s') => ret (None, s')
      end
  end.

(** [enumerate(l)] *)
Fixpoint enumerate_from {A : Type} (n : Z) (l : list A) : list (Z * A) :=
  match l with
  | [] => []
  | x :: rest => (n, x) :: enumerate_from (n + 1) rest
  end.
Definition enumerate {A : Type} (l : list A) : list (Z * A) :=
  enumerate_from 0 l.

Definition time_sleep (d : Q) : M unit :=
  fun w =>
    (Ok tt, {| cache := cache w; clock := (clock w + d)%Q;
               served := served w; trace := trace w ++ [Slept d];
               log := log w |}).

Definition logger (lvl : Level) (msg : string) (arg : LogArg) : M unit :=
  fun w =>
    (Ok tt, {| cache := cache w; clock := clock w; served := served w;
               trace := trace w; log := log w ++ [(lvl, msg, arg)] |}).

Definition _voices_cache_get : M (option (list Voice)) :=
  fun w => (Ok (cache_get (cache w) (clock w)), w).

Definition _voices_cache_set (v : list Voice) : M unit :=
  fun w =>
    (Ok tt, {| cache := cache_set (cache w) v (clock w); clock := clock w;
               served := served w; trace := trace w; log := log w |}).

(** [resp.raise_for_status()]: httpx raises unless the status is 2xx. *)
Definition is_success (status : Z) : bool :=
  (200 <=? status) && (status <=? 299).

Definition raise_for_status (resp : Response) : M unit :=
  if is_success (status_code resp) then ret tt
  else raise (HTTPStatusError (status_code resp)).

(** The two backoff lists of lines 71 and 129, and the list the loops
    iterate over. *)
Definition backoffs : list Q := [1 # 2; 1; 2]%Q.
Definition schedule : list Q := [0%Q] ++ backoffs.

(** [if backoff:] on a float *)
Definition nonzero (d : Q) : bool := negb (Qeq_bool d 0).

Section Calls.

(** [get_settings()] *)
Variable settings : Settings.

(** The provider: the answer to the n-th request ever sent. *)
Variable net : nat -> Request -> Exchange.

(** [client.get] / [client.post] *)
Definition send (r : Request) : M Response :=
  fun w =>
    let x := net (served w) r in
    let w' := {| cache := cache w; clock := (clock w + took x)%Q;
                 served := S (served w); trace := trace w ++ [Sent r];
                 log := log w |} in
    match answer x with
    | Some resp => (Ok resp, w')
    | None => (Raise HTTPError, w')
    end.

(** The request of [_client().get("/voices")], lines 49-58 and 78. *)
Definition voices_request : Request :=
  {| method := "GET";
     url := "https://api.elevenlabs.io/v1" ++ "/voices";
     headers := [("xi-api-key", elevenlabs_api_key settings);
                 ("Accept", "application/json")];
     json_body := PNone |}.

(** Line 84: [data.get("voices") or data.get("data") or []]; only a dict
    has [get]. *)
Definition items_of (data : pyval) : result pyval :=
  match data with
  | PDict d =>
      Ok (py_or (py_or (dict_get d "voices") (dict_get d "data")) (PList []))
  | _ => Raise AttributeError
  end.

(** Lines 87-91 *)
Definition normalize (v : dict) : Voice :=
  {| id := py_or (dict_get v "voice_id") (dict_get v "id");
     name := py_or (dict_get v "name") (PStr "Unnamed");
     labels := py_or (dict_get v "labels") PNone |}.

(** The literal of lines 94 and 116 *)
Definition fallback : list Voice :=
  [ {| id := PStr (default_voice_id settings);
       name := PStr "Default";
       labels := PDict [] |} ].

(** Lines 86-91: one record per entry; only a dict has [get]. *)
Fixpoint normalize_each (entries : list pyval) : result (list Voice) :=
  match entries with
  | [] => Ok []
  | PDict v :: rest =>
      match normalize_each rest with
      | Ok voices => Ok (normalize v :: voices)
      | Raise e => Raise e
      end
  | _ :: _ => Raise AttributeError
  end.

(** Lines 83-94: from [resp.json()] to the list that is cached, or the
    exception that reading the body raises. *)
Definition voices_of_body (body : option pyval) : result (list Voice) :=
  match body with
  | None => Raise JSONDecodeError
  | Some data =>
      match items_of data with
      | Raise e => Raise e
      | Ok items =>
          match py_iter items with
          | Raise e => Raise e
          | Ok entries =>
              match normalize_each entries with
              | Raise e => Raise e
              | Ok [] => Ok fallback
              | Ok voices => Ok voices
              end
          end
      end
  end.

(** The body of the loop of [get_voices], lines 74-112.  In the clause
    for [HTTPStatusError] the status is that of [e.response], which is
    always there and truthy for an error raised by [raise_for_status].
    What reading the body raises is caught by no clause. *)
Definition get_voices_attempt (item : Z * Q) (last_err : option exn)
  : M (Control (list Voice) * option exn) :=
  let '(attempt, backoff) := item in
  (if nonzero backoff then time_sleep backoff else ret tt) ;;;
  try_except
    (resp <- send voices_request ;;
     (if status_code resp =? 429 then raise (RateLimitError "Rate limited")
      else ret tt) ;;;
     raise_for_status resp ;;;
     voices <- (fun w => (voices_of_body (json resp), w)) ;;
     _voices_cache_set voices ;;;
     logger INFO "Загружено голосов: %d" (ArgInt (Z.of_nat (length voices))) ;;;
     ret (Return voices, last_err))
    (fun e =>
       match e with
       | RateLimitError _ =>
           Some (logger WARNING "Rate limited на получении голосов, попытка=%d"
                   (ArgInt attempt) ;;;
                 ret (Continue, Some e))
       | HTTPStatusError status =>
           Some (if (500 <=? status) && (status <? 600)
                 then logger WARNING "5xx при получении голосов, попытка=%d"
                        (ArgInt attempt) ;;;
                      ret (Continue, Some e)
                 else ret (Break, Some e))
       | HTTPError =>
           Some (logger WARNING "HTTP ошибка при получении голосов, попытка=%d"
                   (ArgInt attempt) ;;;
                 ret (Continue, Some e))
       | _ => None
       end).

Definition get_voices : M (list Voice) :=
  cached <- _voices_cache_get ;;
  match cached with
  | Some v => ret v
  | None =>
      r <- for_loop (enumerate schedule) get_voices_attempt None ;;
      match r with
      | (Some voices, _) => ret voices
      | (None, last_err) =>
          logger ERROR "Не удалось получить голоса: %s" (ArgErr last_err) ;;;
          ret fallback
      end
  end.

(** The request of lines 132-152. *)
Definition tts_request (text voice_id fmt : string) : Request :=
  {| method := "POST";
     url := "https://api.elevenlabs.io/v1/text-to-speech/" ++ voice_id;
     headers := [("xi-api-key", elevenlabs_api_key settings);
                 ("Accept", if String.eqb fmt "mp3" then "audio/mpeg"
                            else "application/json");
                 ("Content-Type", "application/json")];
     json_body :=
       PDict [("text", PStr text);
              ("model_id", PStr "eleven_multilingual_v2");
              ("voice_settings",
               PDict [("stability", PFloat (1 # 2));
                      ("similarity_boost", PFloat (3 # 4))])] |}.

(** The body of the loop of [synthesize_speech], lines 147-174. *)
Definition synthesize_attempt (req : Request) (item : Z * Q)
  (last_err : option exn) : M (Control (list Byte.byte) * option exn) :=
  let '(attempt, backoff) := item in
  (if nonzero backoff then time_sleep backoff else ret tt) ;;;
  try_except
    (resp <- send req ;;
     (if status_code resp =? 429 then raise (RateLimitError "Rate limited")
      else ret tt) ;;;
     raise_for_status resp ;;;
     let content := content resp in
     logger INFO "Синтез успешен, bytes=%d"
       (ArgInt (Z.of_nat (length content))) ;;;
     ret (Return content, last_err))
    (fun e =>
       match e with
       | RateLimitError _ =>
           Some (logger WARNING "Rate limited на синтезе, попытка=%d"
                   (ArgInt attempt) ;;;
                 ret (Continue, Some e))
       | HTTPStatusError status =>
           Some (if (500 <=? status) && (status <? 600)
                 then logger WARNING "5xx на синтезе, попытка=%d"
                        (ArgInt attempt) ;;;
                      ret (Continue, Some e)
                 else ret (Break, Some e))
       | HTTPError =>
           Some (logger WARNING "HTTP ошибка на синтезе, попытка=%d"
                   (ArgInt attempt) ;;;
                 ret (Continue, Some e))
       | _ => None
       end).

(** The message of line 177. *)
Definition generic_message : string :=
  "Не удалось сгенерировать аудио. Попробуйте позже.".

Definition synthesize_speech (text voice_id fmt : string)
  : M (list Byte.byte) :=
  if String.eqb text "" then raise (InvalidInputError "Пустой текст")
  else if Z.of_nat (String.length text) >? 5000
  then raise (InvalidInputError "Слишком длинный текст (>5000)")
  else
    r <- for_loop (enumerate schedule)
           (synthesize_attempt (tts_request text voice_id fmt)) None ;;
    match r with
    | (Some content, _) => ret content
    | (None, last_err) =>
        logger ERROR "Синтез не удался: %s" (ArgErr last_err) ;;;
        raise (VoiceServiceError generic_message)
    end.

End Calls.

(** The world at import time. *)
Definition initial_world : World :=
  {| cache := _voices_cache; clock := 0; served := 0; trace := [];
     log := [] |}.

End voice.

(* ===================================================================== *)
(** ** main.py: the per-user state and the handlers *)
(* ===================================================================== *)

Module Handlers.

Import Main voice.

(** The fields of [config.Settings] that the handlers read. *)
Record BotSettings : Type := mkBotSettings {
  base : Settings;
  audio_format : string;
  send_as : string
}.

(** [_user_state], line 24: user id to [{"voice_id": ..}], kept as the
    items of the dict in insertion order, one per key; the value is the
    string under ["voice_id"]. *)
Definition UserState : Type := list (Z * string).

(** [_user_state.get(user_id)] *)
Fixpoint state_get (st : UserState) (user_id : Z) : option string :=
  match st with
  | [] => None
  | (k, v) :: rest => if user_id =? k then Some v else state_get rest user_id
  end.

(** [_user_state[user_id] = {"voice_id": v}] *)
Fixpoint state_set (st : UserState) (user_id : Z) (v : string) : UserState :=
  match st with
  | [] => [(user_id, v)]
  | (k, v') :: rest =>
      if user_id =? k then (k, v) :: rest
      else (k, v') :: state_set rest user_id v
  end.

(** Line 104:
    [_user_state.get(user_id, {}).get("voice_id") or default_voice_id] *)
Definition resolve_voice_id (st : UserState) (user_id : Z) (default : string)
  : string :=
  match state_get st user_id with
  | Some v => if String.eqb v "" then default else v
  | None => default
  end.

(** What the handlers read of an update. *)
Record Update : Type := mkUpdate {
  effective_user : option Z;      (* update.effective_user.id *)
  message : option string         (* update.message.text *)
}.

Record CallbackQuery : Type := mkQuery {
  data : option string;           (* query.data *)
  from_user : Z                   (* query.from_user.id *)
}.

(** The calls to the chat transport. *)
Inductive Outgoing : Type :=
| Answer
| ReplyText (text : string)
    (reply_markup : option (list (list InlineKeyboardButton)))
| ReplyVoice (voice : list Byte.byte)
| ReplyAudio (audio : list Byte.byte) (title filename : string)
| ReplyDocument (document : list Byte.byte) (filename caption : string)
| EditMarkup (reply_markup : list (list InlineKeyboardButton))
| EditText (text : string).

(** What a handler can raise: an exception of [voice.py], an error of the
    transport, and the two that [int()] and [split()[1]] raise. *)
Inductive BotExn : Type :=
| VoiceExn (e : exn)
| TelegramError
| ValueError
| IndexError.

Inductive Outcome (A : Type) : Type :=
| Done (a : A)
| Failed (e : BotExn).
Arguments Done {A} a.
Arguments Failed {A} e.

(** The process: the world of [voice.py], the per-user state, what the
    transport has delivered, and how many calls it has received. *)
Record Bot : Type := mkBot {
  world : World;
  users : UserState;
  outbox : list Outgoing;
  calls : nat
}.

Definition H (A : Type) : Type := Bot -> Outcome A * Bot.

Definition retH {A : Type} (a : A) : H A := fun b => (Done a, b).

Definition failH {A : Type} (e : BotExn) : H A := fun b => (Failed e, b).

Definition bindH {A B : Type} (c : H A) (k : A -> H B) : H B :=
  fun b =>
    match c b with
    | (Done a, b') => k a b'
    | (Failed e, b') => (Failed e, b')
    end.

Declare Scope bot_scope.
Delimit Scope bot_scope with bot.
Notation "'let*' x ':=' c 'in' k" := (bindH c (fun x => k))
  (at level 10, x name, c at level 100, k at level 200) : bot_scope.
Notation "c '>>' k" := (bindH c (fun _ => k))
  (at level 62, right associativity) : bot_scope.
Local Open Scope bot_scope.

(** [try: body except Exception: handler] *)
Definition try_catch_all {A : Type} (body handler : H A) : H A :=
  fun b =>
    match body b with
    | (Done a, b') => (Done a, b')
    | (Failed _, b') => handler b'
    end.

(** A call of [voice.py] from a handler. *)
Definition lift {A : Type} (m : M A) : H A :=
  fun b =>
    match m (world b) with
    | (Ok a, w') =>
        (Done a, {| world := w'; users := users b; outbox := outbox b;
                    calls := calls b |})
    | (Raise e, w') =>
        (Failed (VoiceExn e),
         {| world := w'; users := users b; outbox := outbox b;
            calls := calls b |})
    end.

(** [await asyncio.sleep(d)] *)
Definition asyncio_sleep (d : Q) : H unit :=
  fun b =>
    (Done tt,
     {| world := {| cache := cache (world b);
                    clock := (clock (world b) + d)%Q;
                    served := served (world b);
                    trace := trace (world b);
                    log := log (world b) |};
        users := users b; outbox := outbox b; calls := calls b |}).

(** [s.split(":", 1)[1]]: what follows the first colon. *)
Fixpoint after_colon (s : string) : option string :=
  match s with
  | EmptyString => None
  | String c rest =>
      if Ascii.eqb c ":"%char then Some rest else after_colon rest
  end.

Definition split1 (s : string) : H string :=
  match after_colon s with
  | Some rest => retH rest
  | None => failH IndexError
  end.

Section Bot.

Variable cfg : BotSettings.

(** The provider, as in [voice]. *)
Variable net : nat -> Request -> Exchange.

(** The transport: whether its n-th call goes through. *)
Variable tg : nat -> Outgoing -> bool.

(** Python's [str()] and [int()]. *)
Variable py_str : pyval -> string.
Variable py_int : string -> option Z.

(** One awaited call of the transport: delivered, or an exception. *)
Definition tg_call (o : Outgoing) : H unit :=
  fun b =>
    if tg (calls b) o
    then (Done tt, {| world := world b; users := users b;
                      outbox := outbox b ++ [o]; calls := S (calls b) |})
    else (Failed TelegramError,
          {| world := world b; users := users b; outbox := outbox b;
             calls := S (calls b) |}).

(** [_paginate_buttons(voices, page=page)] with the default page size. *)
Definition paginate (voices : list Voice) (page : Z)
  : H (list (list InlineKeyboardButton) * Z) :=
  match _paginate_buttons py_str voices page default_page_size with
  | Ok r => retH r
  | Raise e => failH (VoiceExn e)
  end.

(** Lines 47-54 *)
Definition cmd_start (update : Update) : H unit :=
  let* voices := lift (get_voices (base cfg) net) in
  let* r := paginate voices 0 in
  match message update with
  | Some _ => tg_call (ReplyText "Выберите голос:" (Some (fst r)))
  | None => retH tt
  end.

(** Lines 57-58 *)
Definition cmd_voice (update : Update) : H unit := cmd_start update.

(** Lines 61-65 *)
Definition cmd_help (update : Update) : H unit :=
  match message update with
  | Some _ =>
      tg_call
        (ReplyText
           "Отправьте текст для озвучки или используйте /voice для выбора голоса."
           None)
  | None => retH tt
  end.

(** Lines 68-96 *)
Definition on_callback (query : CallbackQuery) : H unit :=
  tg_call Answer >>
  let data := match data query with Some d => d | None => "" end in
  if String.prefix "page:" data then
    let* rest := split1 data in
    let* page := match py_int rest with
                 | Some p => retH p
                 | None => failH ValueError
                 end in
    let* voices := lift (get_voices (base cfg) net) in
    let* r := paginate voices page in
    tg_call (EditMarkup (fst r))
  else if String.eqb data "refresh" then
    let* voices := lift (get_voices (base cfg) net) in
    let* r := paginate voices 0 in
    try_catch_all (tg_call (EditMarkup (fst r))) (retH tt)
  else if String.prefix "pick:" data then
    let* voice_id := split1 data in
    let user_id := from_user query in
    (fun b => (Done tt, {| world := world b;
                           users := state_set (users b) user_id voice_id;
                           outbox := outbox b; calls := calls b |})) >>
    tg_call (EditText "Голос выбран. Теперь отправьте текст для озвучки.")
  else retH tt.

(** The document of lines 126-130 and 135-139. *)
Definition tts_document (audio : list Byte.byte) (voice_id text : string)
  : Outgoing :=
  ReplyDocument audio
    ("tts_" ++ voice_id ++ "_"
     ++ str_of_int (Z.of_nat (String.length text)) ++ ".mp3")
    ("Файл: " ++ voice_id).

(** Lines 117-141: the audio, then the file; on any failure the audio as
    an audio message and the file again; on a failure of that, a text. *)
Definition deliver (audio : list Byte.byte) (voice_id text : string)
  : H unit :=
  try_catch_all
    ((if String.eqb (send_as cfg) "voice" then tg_call (ReplyVoice audio)
      else tg_call (ReplyAudio audio "TTS" "tts.mp3")) >>
     tg_call (tts_document audio voice_id text))
    (try_catch_all
       (tg_call (ReplyAudio audio "TTS" "tts.mp3") >>
        tg_call (tts_document audio voice_id text))
       (tg_call
          (ReplyText "Не удалось отправить аудио. Попробуйте позже." None))).

(** Lines 99-143 *)
Definition on_text (update : Update) : H unit :=
  fun b =>
    let user_id := match effective_user update with
                   | Some u => u
                   | None => 0
                   end in
    let text := match message update with Some t => t | None => "" end in
    let voice_id :=
      resolve_voice_id (users b) user_id (default_voice_id (base cfg)) in
    let reply_if_message (s : string) : H unit :=
      match message update with
      | Some _ => tg_call (ReplyText s None)
      | None => retH tt
      end in
    match lift (synthesize_speech (base cfg) net text voice_id
                  (audio_format cfg)) b with
    | (Failed (VoiceExn (InvalidInputError msg)), b') =>
        reply_if_message msg b'
    | (Failed (VoiceExn (VoiceServiceError _)), b')
    | (Failed (VoiceExn (RateLimitError _)), b') =>
        reply_if_message "Сервис перегружен, попробуйте позже." b'
    | (Failed e, b') => (Failed e, b')
    | (Done audio_bytes, b') =>
        ((match message update with
          | Some _ => deliver audio_bytes voice_id text
          | None => retH tt
          end) >>
         asyncio_sleep (1 # 20)) b'
    end.

End Bot.

(** The process at start. *)
Definition initial_bot : Bot :=
  {| world := initial_world; users := []; outbox := []; calls := 0 |}.

End Handlers.

(* ===================================================================== *)
(** ** Vocabulary of the properties *)
(* ===================================================================== *)

Module Spec.

Import voice.

(** What the except clauses of both loops make of one exchange: the
    response of a successful attempt, or the exception that makes the loop
    go on, or the one that makes it stop. *)
Inductive Verdict : Type :=
| Succeeds (resp : Response)
| Retries (e : exn)
| Aborts (e : exn).

Definition verdict (x : Exchange) : Verdict :=
  match answer x with
  | None => Retries HTTPError
  | Some resp =>
      let s := status_code resp in
      if s =? 429 then Retries (RateLimitError "Rate limited")
      else if is_success s then Succeeds resp
      else if (500 <=? s) && (s <? 600) then Retries (HTTPStatusError s)
      else Aborts (HTTPStatusError s)
  end.

(** The HTTP status of an exchange, [None] for a transport error. *)
Definition status_of (x : Exchange) : option Z :=
  option_map status_code (answer x).

Definition is_retry (v : Verdict) : bool :=
  match v with Retries _ => true | _ => false end.

(** The verdicts of the requests number [n], [n+1], .. ([len] of them),
    all of them carrying [req]. *)
Fixpoint verdicts (net : nat -> Request -> Exchange) (n : nat)
  (req : Request) (len : nat) : list Verdict :=
  match len with
  | O => []
  | S len' => verdict (net n req) :: verdicts net (S n) req len'
  end.

(** How many attempts a loop facing these verdicts makes. *)
Fixpoint attempts_of (vs : list Verdict) : nat :=
  match vs with
  | [] => 0
  | Retries _ :: rest => S (attempts_of rest)
  | _ :: _ => 1
  end.

(** The response of the attempt that succeeds, if one does before the
    loop stops. *)
Fixpoint success_of (vs : list Verdict) : option Response :=
  match vs with
  | [] => None
  | Succeeds resp :: _ => Some resp
  | Retries _ :: rest => success_of rest
  | Aborts _ :: _ => None
  end.

(** Every attempt that is made fails. *)
Fixpoint all_attempts_fail (vs : list Verdict) : bool :=
  match vs with
  | [] => true
  | Succeeds _ :: _ => false
  | Retries _ :: rest => all_attempts_fail rest
  | Aborts _ :: _ => true
  end.

(** What one attempt adds to the trace: the sleep, when the delay is not
    zero, then the request. *)
Definition attempt_events (req : Request) (d : Q) : list Event :=
  (if nonzero d then [Slept d] else []) ++ [Sent req].

(** What the first [n] attempts of a loop add to the trace. *)
Definition run_events (req : Request) (n : nat) : list Event :=
  flat_map (attempt_events req) (firstn n schedule).

(** What a loop body does in one attempt that sends [req]: one more
    request served, the attempt's events on the trace, and the control
    that the verdict of the exchange dictates.  On a 2xx answer the body
    returns what [val] reads from the response and the cache becomes
    [cache_after]; when reading raises, the exception leaves the body.
    In every other case the cache is as it was. *)
Definition attempt_spec (net : nat -> Request -> Exchange) {B : Type}
  (body : Z * Q -> option exn -> M (Control B * option exn))
  (req : Request) (val : Response -> result B)
  (cache_after : B -> _VoicesCache -> Q -> _VoicesCache) : Prop :=
  forall item last_err w,
  exists w',
    served w' = S (served w) /\
    trace w' = trace w ++ attempt_events req (snd item) /\
    match verdict (net (served w) req) with
    | Succeeds resp =>
        match val resp with
        | Ok b =>
            body item last_err w = (Ok (Return b, last_err), w') /\
            cache w' = cache_after b (cache w) (clock w')
        | Raise e =>
            body item last_err w = (Raise e, w') /\
            cache w' = cache w
        end
    | Retries e =>
        body item last_err w = (Ok (Continue, Some e), w') /\
        cache w' = cache w
    | Aborts e =>
        body item last_err w = (Ok (Break, Some e), w') /\
        cache w' = cache w
    end.

(** Text that passes the checks of lines 123-126. *)
Definition valid_text (text : string) : Prop :=
  text <> "" /\ (String.length text <= 5000)%nat.

(** A string that is not empty. *)
Definition nonempty_str (v : pyval) : bool :=
  match v with
  | PStr s => negb (String.eqb s "")
  | _ => false
  end.

End Spec.

(** ** Sample data *)

Module Sample.

Import voice Spec.

Definition settings : Settings :=
  {| elevenlabs_api_key := "key"; default_voice_id := "v0" |}.

(** A stand-in for Python's [str()]. *)
Definition py_str (v : pyval) : string :=
  match v with
  | PStr s => s
  | PInt z => str_of_int z
  | _ => "None"
  end.

Definition voice_named (s : string) : Voice :=
  {| id := PStr s; name := PStr s; labels := PNone |}.

Definition nine_voices : list Voice :=
  map voice_named ["a"; "b"; "c"; "d"; "e"; "f"; "g"; "h"; "i"].

Definition empty_body : pyval := PDict [].

Definition respond (status : Z) (body : pyval)
  (bytes : list Byte.byte) : Exchange :=
  {| took := 1 # 10;
     answer := Some {| status_code := status; json := Some body;
                       content := bytes |} |}.

Definition two_entries : pyval :=
  PDict [("voices",
          PList [PDict [("voice_id", PStr "v1"); ("name", PStr "Anna")];
                 PDict [("id", PStr "v2")]])].

(** Three times 429, then 200. *)
Definition net_429x3_then_ok (n : nat) (r : Request) : Exchange :=
  if (n <? 3)%nat then respond 429 empty_body []
  else respond 200 two_entries [Byte.x49; Byte.x44; Byte.x33].

(** 400 on every request. *)
Definition net_400 (n : nat) (r : Request) : Exchange :=
  respond 400 empty_body [].

(** 503 twice, then 400. *)
Definition net_503x2_then_400 (n : nat) (r : Request) : Exchange :=
  if (n <? 2)%nat then respond 503 empty_body []
  else respond 400 empty_body [].

(** 503 on every request. *)
Definition net_503 (n : nat) (r : Request) : Exchange :=
  respond 503 empty_body [].

(** 200 on every request. *)
Definition net_ok (n : nat) (r : Request) : Exchange :=
  respond 200 two_entries [Byte.x49; Byte.x44; Byte.x33].

(** An entry without identifier. *)
Definition net_no_id (n : nat) (r : Request) : Exchange :=
  respond 200 (PDict [("voices", PList [PDict [("name", PStr "Anna")]])]) [].

(** 200 with the JSON array [[]] as body. *)
Definition net_array_body (n : nat) (r : Request) : Exchange :=
  respond 200 (PList []) [].

(** 200 with a body that is not JSON. *)
Definition net_not_json (n : nat) (r : Request) : Exchange :=
  {| took := 1 # 10;
     answer := Some {| status_code := 200; json := None; content := [] |} |}.

(** ["a" * n] *)
Fixpoint a_times (n : nat) : string :=
  match n with
  | O => ""
  | S n' => String "a" (a_times n')
  end.

End Sample.

(** ** Vocabulary of the further properties *)

Module More.

Import Main voice Spec Handlers.

(** An exchange that both loops retry: a transport error, 429 or 5xx. *)
Definition retryable (x : Exchange) : bool :=
  match status_of x with
  | None => true
  | Some s => (s =? 429) || ((500 <=? s) && (s <? 600))
  end.

(** The entries [get_voices] iterates over when it reads a body. *)
Definition entries_of (body : option pyval) : result (list pyval) :=
  match body with
  | None => Raise JSONDecodeError
  | Some data =>
      match items_of data with
      | Raise e => Raise e
      | Ok items => py_iter items
      end
  end.

(** The seconds slept in a stretch of trace. *)
Fixpoint slept_total (events : list Event) : Q :=
  match events with
  | [] => 0
  | Slept d :: rest => (d + slept_total rest)%Q
  | Sent _ :: rest => slept_total rest
  end.








(** Keys of the per-user state. *)
Definition state_keys (st : UserState) : list Z := map fst st.

(** The same bot with another world. *)
Definition with_world (b : Bot) (w : World) : Bot :=
  {| world := w; users := users b; outbox := outbox b; calls := calls b |}.

(** After a call of the transport: one more call counted, the message in
    the outbox when it went through, the rest as it was. *)
Definition after_call (tg : nat -> Outgoing -> bool) (o : Outgoing) (b : Bot)
  : Bot :=
  {| world := world b; users := users b;
     outbox := if tg (calls b) o then outbox b ++ [o] else outbox b;
     calls := S (calls b) |}.

(** What a call of the transport returns. *)
Definition call_result (tg : nat -> Outgoing -> bool) (o : Outgoing) (b : Bot)
  : Outcome unit :=
  if tg (calls b) o then Done tt else Failed TelegramError.

(** The keyboard of a page of the default size. *)
Definition keyboard (py_str : pyval -> string) (voices : list Voice)
  (page : Z) : list (list InlineKeyboardButton) :=
  map (pick_row py_str) (page_voices voices page 8)
  ++ [nav_row page (total_pages_of (Z.of_nat (length voices)) 8)].

(** The texts the handlers send. *)
Definition overloaded_text : string := "Сервис перегружен, попробуйте позже.".
Definition undelivered_text : string :=
  "Не удалось отправить аудио. Попробуйте позже.".
Definition picked_text : string :=
  "Голос выбран. Теперь отправьте текст для озвучки.".

(** The first message of a delivery (lines 120-123). *)
Definition first_message (cfg : BotSettings) (audio : list Byte.byte)
  : Outgoing :=
  if String.eqb (send_as cfg) "voice" then ReplyVoice audio
  else ReplyAudio audio "TTS" "tts.mp3".

(** Sample settings, transports and a decimal [int()]. *)
Definition cfg_voice : BotSettings :=
  {| base := Sample.settings; audio_format := "mp3"; send_as := "voice" |}.

Definition tg_ok (n : nat) (o : Outgoing) : bool := true.

Definition tg_down (n : nat) (o : Outgoing) : bool := false.

(** Documents are refused, the rest goes through. *)
Definition tg_no_documents (n : nat) (o : Outgoing) : bool :=
  match o with
  | ReplyDocument _ _ _ => false
  | _ => true
  end.

(** The second call is refused, the rest goes through. *)
Definition tg_second_fails (n : nat) (o : Outgoing) : bool :=
  negb (n =? 1)%nat.

Definition decimal_int (s : string) : option Z :=
  option_map Z.of_int (NilZero.int_of_string s).

(** 200 with a body that has no entry. *)
Definition net_empty (n : nat) (r : Request) : Exchange :=
  Sample.respond 200 Sample.empty_body [].

(** 503, then a timeout, then 200. *)
Definition net_503_timeout_ok (n : nat) (r : Request) : Exchange :=
  match n with
  | O => Sample.respond 503 Sample.empty_body []
  | S O => {| took := 15; answer := None |}
  | _ => Sample.respond 200 Sample.two_entries [Byte.x49; Byte.x44; Byte.x33]
  end.

Definition ok_response : Response :=
  {| status_code := 200; json := Some Sample.two_entries;
     content := [Byte.x49; Byte.x44; Byte.x33] |}.

Definition press (payload : string) (user : Z) : CallbackQuery :=
  {| data := Some payload; from_user := user |}.

Definition text_from (user : Z) (s : string) : Update :=
  {| effective_user := Some user; message := Some s |}.

End More.

(* ===================================================================== *)
(** * Properties *)
(* ===================================================================== *)

(** ** Slices *)

Section SliceFacts.

Context {A : Type}.
Implicit Types l : list A.

Lemma adjust_index_nonneg len i :
  0 <= i -> adjust_index len i = Z.min i len.
Proof.
  intros Hi. unfold adjust_index.
  destruct (Z.ltb_spec i 0); [lia | reflexivity].
Qed.

Lemma adjust_index_neg len i :
  i < 0 -> adjust_index len i = Z.max 0 (i + len).
Proof.
  intros Hi. unfold adjust_index.
  destruct (Z.ltb_spec i 0); [reflexivity | lia].
Qed.

(** With both bounds in order and not negative, a slice drops [start]
    elements and keeps the next [stop - start]. *)
Lemma py_slice_nonneg l start stop :
  0 <= start <= stop ->
  py_slice l start stop
  = firstn (Z.to_nat (stop - start)) (skipn (Z.to_nat start) l).
Proof.
  intros [H0 H1]. unfold py_slice.
  rewrite !adjust_index_nonneg by lia.
  set (len := Z.of_nat (length l)).
  destruct (Z.ltb_spec (Z.min start len) (Z.min stop len)) as [Hlt | Hge].
  - assert (Hs : start < len) by lia.
    rewrite (Z.min_l start len) by lia.
    destruct (Z.le_gt_cases stop len) as [Hle | Hgt].
    + rewrite (Z.min_l stop len) by lia. reflexivity.
    + rewrite (Z.min_r stop len) by lia.
      rewrite !firstn_all2; [reflexivity | |];
        rewrite length_skipn; subst len; lia.
  - destruct (Z.le_gt_cases len start) as [Hle | Hgt].
    + rewrite skipn_all2 by (subst len; lia).
      now rewrite firstn_nil.
    + assert (stop = start) by lia. subst stop.
      now rewrite Z.sub_diag.
Qed.

Lemma firstn_add_skipn l (n m : nat) :
  firstn n l ++ firstn m (skipn n l) = firstn (n + m) l.
Proof.
  revert l. induction n as [| n IH]; intros l; simpl.
  - reflexivity.
  - destruct l as [| x l]; simpl.
    + now rewrite firstn_nil.
    + now rewrite IH.
Qed.

(** The first [n] chunks of size [k], put end to end, are the first
    [n * k] elements. *)
Lemma concat_chunks l (k n : nat) :
  concat (map (fun p => firstn k (skipn (p * k) l)) (seq 0 n))
  = firstn (n * k) l.
Proof.
  induction n as [| n IH].
  - reflexivity.
  - rewrite seq_S, map_app, concat_app, IH. simpl.
    rewrite app_nil_r, firstn_add_skipn.
    f_equal. lia.
Qed.

End SliceFacts.

Section SliceLength.

Context {A : Type}.
Implicit Types l : list A.

Lemma adjust_index_bounds len i :
  0 <= len -> 0 <= adjust_index len i <= len.
Proof.
  intros Hlen. unfold adjust_index.
  destruct (Z.ltb_spec i 0); lia.
Qed.

Lemma py_slice_length l start stop :
  let len := Z.of_nat (length l) in
  Z.of_nat (length (py_slice l start stop))
  = Z.max 0 (adjust_index len stop - adjust_index len start).
Proof.
  intros len. unfold py_slice. fold len.
  pose proof (adjust_index_bounds len start ltac:(subst len; lia)) as Hlo.
  pose proof (adjust_index_bounds len stop ltac:(subst len; lia)) as Hhi.
  destruct (Z.ltb_spec (adjust_index len start) (adjust_index len stop)).
  - rewrite length_firstn, length_skipn. subst len. lia.
  - simpl. lia.
Qed.

Lemma py_slice_nil_iff l start stop :
  let len := Z.of_nat (length l) in
  py_slice l start stop = []
  <-> adjust_index len stop <= adjust_index len start.
Proof.
  intros len. pose proof (py_slice_length l start stop) as Hlen.
  fold len in Hlen. cbv zeta in Hlen.
  split.
  - intros E. rewrite E in Hlen. simpl in Hlen. lia.
  - intros Hle. apply length_zero_iff_nil. lia.
Qed.

(** [l[start:]] has an element iff the list has one at or after [start]. *)
Lemma py_slice_from_nonempty l start :
  py_slice_from l start <> [] <-> start < Z.of_nat (length l) /\ l <> [].
Proof.
  unfold py_slice_from. rewrite py_slice_nil_iff.
  unfold adjust_index.
  assert (Hl : l <> [] <-> 0 < Z.of_nat (length l)).
  { rewrite <- length_zero_iff_nil. lia. }
  rewrite Hl.
  destruct (Z.ltb_spec (Z.of_nat (length l)) 0);
    destruct (Z.ltb_spec start 0); lia.
Qed.

(** A slice with both bounds negative counts both from the end. *)
Lemma py_slice_neg l start stop :
  start < 0 -> stop < 0 ->
  let len := Z.of_nat (length l) in
  py_slice l start stop
  = firstn (Z.to_nat (Z.max 0 (stop + len) - Z.max 0 (start + len)))
      (skipn (Z.to_nat (Z.max 0 (start + len))) l).
Proof.
  intros Hs Ht len. unfold py_slice. fold len.
  rewrite !adjust_index_neg by lia.
  destruct (Z.ltb_spec (Z.max 0 (start + len)) (Z.max 0 (stop + len))).
  - reflexivity.
  - replace (Z.to_nat _) with 0%nat at 1 by lia. reflexivity.
Qed.

End SliceLength.

(** ** Pagination *)

Section PaginationFacts.

Import Main.

Variable py_str : pyval -> string.

Lemma total_pages_ceil n page_size :
  0 < page_size -> 0 <= n ->
  let c := (n + page_size - 1) / page_size in
  page_size * (c - 1) < n <= page_size * c.
Proof.
  intros Hp Hn c.
  pose proof (Z.div_mod (n + page_size - 1) page_size ltac:(lia)) as Hdm.
  pose proof (Z.mod_pos_bound (n + page_size - 1) page_size Hp) as Hb.
  fold c in Hdm. nia.
Qed.

Lemma paginate_ok voices page page_size :
  page_size <> 0 ->
  _paginate_buttons py_str voices page page_size
  = Ok (map (pick_row py_str)
          (py_slice voices (page * page_size) (page * page_size + page_size))
        ++ [nav_row page
              (total_pages_of (Z.of_nat (length voices)) page_size)],
        total_pages_of (Z.of_nat (length voices)) page_size).
Proof.
  intros Hp. unfold _paginate_buttons, page_voices.
  destruct (Z.eqb_spec page_size 0); [contradiction | reflexivity].
Qed.

Lemma nav_row_prev page total :
  In (prev_button page) (nav_row page total) <-> page > 0.
Proof.
  unfold nav_row, prev_button, next_button, refresh_button.
  destruct (Z.gtb_spec page 0); destruct (Z.ltb_spec (page + 1) total);
    simpl; split; intros H'; try lia; auto;
    repeat (destruct H' as [H' | H']; try discriminate H');
    try contradiction; auto.
Qed.

Lemma nav_row_next page total :
  In (next_button page) (nav_row page total) <-> page + 1 < total.
Proof.
  unfold nav_row, prev_button, next_button, refresh_button.
  destruct (Z.gtb_spec page 0); destruct (Z.ltb_spec (page + 1) total);
    simpl; split; intros H'; try lia; auto;
    repeat (destruct H' as [H' | H']; try discriminate H');
    try contradiction; auto.
Qed.

Lemma nav_row_refresh page total :
  In refresh_button (nav_row page total).
Proof.
  unfold nav_row. apply in_or_app. right. now left.
Qed.

(** For a page that is not negative, "next" is offered exactly when some
    voice lies beyond the page; for a negative page it is offered always,
    and something lies beyond unless the list is empty. *)
Lemma next_iff_remaining (voices : list Voice) page page_size :
  0 < page_size ->
  0 <= page \/ voices <> [] ->
  page + 1 < total_pages_of (Z.of_nat (length voices)) page_size
  <-> py_slice_from voices (page * page_size + page_size) <> [].
Proof.
  intros Hp Hdom. rewrite py_slice_from_nonempty.
  assert (Hl : voices <> [] <-> 0 < Z.of_nat (length voices)).
  { rewrite <- length_zero_iff_nil. lia. }
  rewrite Hl in *.
  unfold total_pages_of.
  pose proof (total_pages_ceil (Z.of_nat (length voices)) page_size Hp
                ltac:(lia)) as Hc.
  cbv zeta in Hc.
  set (c := (Z.of_nat (length voices) + page_size - 1) / page_size) in *.
  nia.
Qed.

End PaginationFacts.

Section PaginationClaims.

Import Main.

Variable py_str : pyval -> string.

(** C4. For a list of N voices and the page size 8, [_paginate_buttons]
    reports [max(1, ceil(N/8))] pages (c below is the ceiling: the integer
    with 8(c-1) < N <= 8c), whatever page is asked for, and the slices
    [voices[p*8 : p*8+8]] of the pages p = 0 .. total_pages-1, put end to
    end in that order, are the list itself. *)
Theorem paginate_pages_cover_list (voices : list Voice) :
  let n := Z.of_nat (length voices) in
  exists c total : Z,
    8 * (c - 1) < n <= 8 * c /\
    total = Z.max 1 c /\
    (forall page : Z,
        _paginate_buttons py_str voices page 8
        = Ok (map (pick_row py_str)
                (py_slice voices (page * 8) (page * 8 + 8))
              ++ [nav_row page total], total)) /\
    concat (map (fun p : nat =>
                   py_slice voices (Z.of_nat p * 8) (Z.of_nat p * 8 + 8))
              (seq 0 (Z.to_nat total)))
    = voices.
Proof.
  intros n.
  pose proof (total_pages_ceil n 8 ltac:(lia) ltac:(subst n; lia)) as Hc.
  cbv zeta in Hc.
  exists ((n + 8 - 1) / 8), (total_pages_of n 8).
  split; [exact Hc |].
  split; [reflexivity |].
  split.
  - intros page. now rewrite paginate_ok.
  - unfold total_pages_of.
    set (c := (n + 8 - 1) / 8) in *.
    rewrite (map_ext _ (fun p : nat => firstn 8 (skipn (p * 8) voices))).
    + rewrite concat_chunks. apply firstn_all2. subst n. lia.
    + intros p. rewrite py_slice_nonneg by lia.
      f_equal; [lia | f_equal; lia].
Qed.

(** C7. The pagination helper is a function of (voices, page, page_size)
    alone: it takes no world and returns none.  For a positive page size
    its last row is the navigation row, which holds the "previous" button
    iff page > 0, the "next" button iff page + 1 < total_pages, and always
    the "refresh" button; for a page that is not negative (or a list that is
    not empty) "next" is there iff voices remain beyond the page.  For a
    page at or beyond total_pages the slice is empty and the navigation
    row is the only row. *)
Theorem paginate_navigation_row (voices : list Voice) (page page_size : Z) :
  0 < page_size ->
  let total := total_pages_of (Z.of_nat (length voices)) page_size in
  let nav := nav_row page total in
  _paginate_buttons py_str voices page page_size
  = Ok (map (pick_row py_str) (page_voices voices page page_size) ++ [nav],
        total) /\
  (In (prev_button page) nav <-> page > 0) /\
  (In (next_button page) nav <-> page + 1 < total) /\
  (0 <= page \/ voices <> [] ->
   (In (next_button page) nav
    <-> py_slice_from voices (page * page_size + page_size) <> [])) /\
  In refresh_button nav /\
  (total <= page ->
   page_voices voices page page_size = [] /\
   _paginate_buttons py_str voices page page_size = Ok ([nav], total)).
Proof.
  intros Hp total nav.
  assert (Hok : _paginate_buttons py_str voices page page_size
                = Ok (map (pick_row py_str)
                        (page_voices voices page page_size) ++ [nav], total)).
  { rewrite paginate_ok by lia. reflexivity. }
  split; [exact Hok |].
  split; [apply nav_row_prev |].
  split; [apply nav_row_next |].
  split.
  { intros Hdom. subst nav. rewrite nav_row_next.
    now apply next_iff_remaining. }
  split; [apply nav_row_refresh |].
  intros Hout.
  assert (Hnil : page_voices voices page page_size = []).
  { unfold page_voices. apply py_slice_nil_iff.
    pose proof (total_pages_ceil (Z.of_nat (length voices)) page_size Hp
                  ltac:(lia)) as Hc.
    cbv zeta in Hc. subst total. unfold total_pages_of in Hout.
    set (c := (Z.of_nat (length voices) + page_size - 1) / page_size) in *.
    assert (Hstart : Z.of_nat (length voices) <= page * page_size) by nia.
    rewrite (adjust_index_nonneg _ (page * page_size)) by nia.
    pose proof (adjust_index_bounds (Z.of_nat (length voices))
                  (page * page_size + page_size) ltac:(lia)).
    lia. }
  split; [exact Hnil |].
  rewrite Hok, Hnil. reflexivity.
Qed.

(** C10. For a negative page and the page size 8 the navigation row has
    no "previous" button and has the "next" button (the test
    page + 1 < total_pages holds); for page = -1 that button leads to page 0
    and the slice is empty; for page <= -2 both bounds of the slice count
    from the end of the list, and the slice has an element exactly when the
    list has more than 8 * (-page - 1) voices. *)
Theorem paginate_negative_page (voices : list Voice) (page : Z) :
  page < 0 ->
  let n := Z.of_nat (length voices) in
  let total := total_pages_of n 8 in
  let nav := nav_row page total in
  _paginate_buttons py_str voices page 8
  = Ok (map (pick_row py_str) (page_voices voices page 8) ++ [nav], total) /\
  ~ In (prev_button page) nav /\
  (In (next_button page) nav <-> page + 1 < total) /\
  In (next_button page) nav /\
  (page = -1 ->
   callback_data (next_button page) = "page:0" /\
   page_voices voices page 8 = []) /\
  (page <= -2 ->
   page_voices voices page 8
   = firstn (Z.to_nat (Z.max 0 (n + 8 * page + 8) - Z.max 0 (n + 8 * page)))
       (skipn (Z.to_nat (Z.max 0 (n + 8 * page))) voices) /\
   (page_voices voices page 8 <> [] <-> 8 * (- page - 1) < n)).
Proof.
  intros Hneg n total nav.
  assert (Htot : 1 <= total) by (subst total; unfold total_pages_of; lia).
  split; [now rewrite paginate_ok by lia |].
  split; [subst nav; rewrite nav_row_prev; lia |].
  split; [apply nav_row_next |].
  split; [subst nav; rewrite nav_row_next; lia |].
  split.
  - intros ->. split; [reflexivity |].
    unfold page_voices. apply py_slice_nil_iff.
    fold n. unfold adjust_index. simpl.
    destruct (Z.ltb_spec (-8 + n) 0); lia.
  - intros Hle. unfold page_voices.
    split.
    + rewrite py_slice_neg by lia. fold n.
      f_equal; [f_equal; lia | f_equal; f_equal; lia].
    + rewrite py_slice_nil_iff. fold n.
      rewrite !adjust_index_neg by lia. lia.
Qed.

End PaginationClaims.

(** ** The retry loops *)

Section RetryFacts.

Import voice Spec.

Variable settings : Settings.
Variable net : nat -> Request -> Exchange.

(** Unfold the monad, then split on the delay and on the exchange the way
    [verdict] does. *)
Ltac run_attempt :=
  unfold try_except, bind, send, raise_for_status, raise, ret,
    _voices_cache_set, logger, time_sleep; simpl.

Ltac split_attempt d w req :=
  unfold attempt_events, verdict;
  destruct (nonzero d); simpl;
  (destruct (answer (net (served w) req)) as [resp |]; simpl;
   [ destruct (status_code resp =? 429); simpl;
     [ | destruct (is_success (status_code resp)); simpl;
         [ | destruct ((500 <=? status_code resp)
                       && (status_code resp <? 600)); simpl ] ]
   | ]).

(** In each case the body has run to its end: name the world it left. *)
Ltac close_attempt :=
  eexists; (split; [| split; [| split]]);
  try reflexivity; simpl; try reflexivity;
  rewrite <- ?app_assoc; reflexivity.

Lemma normalize_each_raises (entries : list pyval) (e : exn) :
  normalize_each entries = Raise e -> e = AttributeError.
Proof.
  induction entries as [| v entries IH]; simpl; [discriminate |].
  destruct v; try (intros [= <-]; reflexivity).
  destruct (normalize_each entries); [discriminate |].
  intros [= <-]. now apply IH.
Qed.

(** Reading a body raises nothing that an except clause catches. *)
Lemma voices_of_body_raises (body : option pyval) (e : exn) :
  voices_of_body settings body = Raise e ->
  e = JSONDecodeError \/ e = AttributeError \/ e = TypeError.
Proof.
  unfold voices_of_body, items_of.
  destruct body as [data |]; [| intros [= <-]; auto].
  destruct data; try (intros [= <-]; auto).
  destruct (py_iter _) as [entries | e0] eqn:Hiter.
  - destruct (normalize_each entries) as [[| v voices] | e0] eqn:Hn;
      try discriminate.
    intros [= <-]. right. left. now apply normalize_each_raises in Hn.
  - intros [= <-]. unfold py_iter in Hiter.
    destruct (py_or _ _); try discriminate Hiter;
      injection Hiter as <-; auto.
Qed.

Lemma get_voices_attempt_spec :
  attempt_spec net (get_voices_attempt settings net) (voices_request settings)
    (fun resp => voices_of_body settings (json resp))
    (fun voices c now => cache_set c voices now).
Proof.
  intros [attempt d] last_err w. simpl snd.
  unfold get_voices_attempt. run_attempt.
  split_attempt d w (voices_request settings);
    try match goal with
        | |- context [voices_of_body ?s ?j] =>
            let Hv := fresh "Hv" in
            destruct (voices_of_body s j) as [voices | e] eqn:Hv; simpl;
            [| destruct (voices_of_body_raises _ _ Hv) as [-> | [-> | ->]];
               simpl]
        end;
    close_attempt.
Qed.

Lemma synthesize_attempt_spec (req : Request) :
  attempt_spec net (synthesize_attempt net req) req
    (fun resp => Ok (content resp)) (fun bytes c now => c).
Proof.
  intros [attempt d] last_err w. simpl snd.
  unfold synthesize_attempt. run_attempt.
  split_attempt d w req; close_attempt.
Qed.

Lemma verdicts_length n req len :
  length (verdicts net n req len) = len.
Proof.
  revert n. induction len as [| len IH]; intros n; simpl; [| rewrite IH];
    reflexivity.
Qed.

Lemma attempts_of_le vs : (attempts_of vs <= length vs)%nat.
Proof.
  induction vs as [| [resp | e | e] vs IH]; simpl; lia.
Qed.

Lemma all_attempts_fail_iff vs :
  all_attempts_fail vs = true <-> success_of vs = None.
Proof.
  induction vs as [| [resp | e | e] vs IH]; simpl;
    try tauto; split; intros; try discriminate; auto.
Qed.

(** The loop over any list of delays, against the verdicts of the
    requests it sends: it makes [attempts_of] attempts, leaves their events
    on the trace, returns what is read from the response of the attempt
    that succeeds (or raises what reading it raises), and leaves the
    cache alone when nothing is read. *)
Lemma for_loop_spec {B : Type}
  (body : Z * Q -> option exn -> M (Control B * option exn))
  (req : Request) (val : Response -> result B)
  (cache_after : B -> _VoicesCache -> Q -> _VoicesCache) :
  attempt_spec net body req val cache_after ->
  forall (items : list (Z * Q)) (last_err : option exn) (w : World),
    let vs := verdicts net (served w) req (length items) in
    exists (w' : World) (last_err' : option exn),
      served w' = (served w + attempts_of vs)%nat /\
      trace w'
      = trace w
        ++ flat_map (attempt_events req)
             (firstn (attempts_of vs) (map snd items)) /\
      match success_of vs with
      | Some resp =>
          match val resp with
          | Ok b =>
              for_loop items body last_err w
              = (Ok (Some b, last_err'), w') /\
              cache w' = cache_after b (cache w) (clock w')
          | Raise e =>
              for_loop items body last_err w = (Raise e, w') /\
              cache w' = cache w
          end
      | None =>
          for_loop items body last_err w = (Ok (None, last_err'), w') /\
          cache w' = cache w
      end.
Proof.
  intros Hbody items.
  induction items as [| item items IH]; intros last_err w; simpl.
  - exists w, last_err. rewrite Nat.add_0_r, app_nil_r. auto.
  - destruct (Hbody item last_err w) as (w1 & Hserved & Htrace & Hstep).
    unfold bind.
    destruct (verdict (net (served w) req)) as [resp | e | e].
    + simpl. exists w1, last_err. rewrite app_nil_r.
      split; [lia |]. split; [exact Htrace |].
      destruct (val resp) as [b | e]; destruct Hstep as [Hrun Hcache];
        rewrite Hrun; auto.
    + destruct Hstep as [Hrun Hcache]. rewrite Hrun. simpl.
      destruct (IH (Some e) w1) as (w2 & le2 & Hs2 & Ht2 & Hres).
      cbv zeta in Hs2, Ht2, Hres. rewrite Hserved in Hs2, Ht2, Hres.
      exists w2, le2.
      split; [lia |].
      split; [rewrite Ht2, Htrace, <- app_assoc; reflexivity |].
      destruct (success_of (verdicts net (S (served w)) req (length items)))
        as [resp |]; [destruct (val resp) |];
        destruct Hres as [Hr Hc]; rewrite Hr, Hc, Hcache; auto.
    + destruct Hstep as [Hrun Hcache]. rewrite Hrun. simpl.
      exists w1, (Some e). rewrite app_nil_r.
      repeat split; auto. lia.
Qed.

End RetryFacts.

(** ** The two operations, summarised *)

Section CallFacts.

Import voice Spec.

Variable settings : Settings.
Variable net : nat -> Request -> Exchange.

Lemma enumerate_schedule_delays : map snd (enumerate schedule) = schedule.
Proof. reflexivity. Qed.

(** A hit: the cached list, and the world as it was. *)
Lemma get_voices_hit (w : World) (v : list Voice) :
  cache_get (cache w) (clock w) = Some v ->
  get_voices settings net w = (Ok v, w).
Proof.
  intros Hhit. unfold get_voices, bind, _voices_cache_get.
  rewrite Hhit. reflexivity.
Qed.

(** A miss: the loop runs against the verdicts of the next four
    requests. *)
Lemma get_voices_miss (w : World) :
  cache_get (cache w) (clock w) = None ->
  let req := voices_request settings in
  let vs := verdicts net (served w) req 4 in
  exists w' : World,
    served w' = (served w + attempts_of vs)%nat /\
    trace w' = trace w ++ run_events req (attempts_of vs) /\
    match success_of vs with
    | Some resp =>
        match voices_of_body settings (json resp) with
        | Ok voices =>
            get_voices settings net w = (Ok voices, w') /\
            cache w' = cache_set (cache w) voices (clock w')
        | Raise e =>
            get_voices settings net w = (Raise e, w') /\
            cache w' = cache w
        end
    | None =>
        get_voices settings net w = (Ok (fallback settings), w') /\
        cache w' = cache w
    end.
Proof.
  intros Hmiss req vs.
  destruct (for_loop_spec net _ _ _ _ (get_voices_attempt_spec settings net)
              (enumerate schedule) None w)
    as (w1 & le1 & Hserved & Htrace & Hres).
  cbv zeta in Hserved, Htrace, Hres.
  rewrite enumerate_schedule_delays in Htrace.
  change (length (enumerate schedule)) with 4%nat in Hserved, Htrace, Hres.
  fold req in Hserved, Htrace, Hres. fold vs in Hserved, Htrace, Hres.
  unfold get_voices, bind, _voices_cache_get. rewrite Hmiss.
  destruct (success_of vs) as [resp |];
    [destruct (voices_of_body settings (json resp)) |];
    destruct Hres as [Hrun Hcache]; rewrite Hrun.
  - exists w1. auto.
  - exists w1. auto.
  - eexists. simpl. repeat split; [exact Hserved | exact Htrace | exact Hcache].
Qed.

Lemma synthesize_speech_run (text voice_id fmt : string) (w : World) :
  valid_text text ->
  let req := tts_request settings text voice_id fmt in
  let vs := verdicts net (served w) req 4 in
  exists w' : World,
    served w' = (served w + attempts_of vs)%nat /\
    trace w' = trace w ++ run_events req (attempts_of vs) /\
    cache w' = cache w /\
    synthesize_speech settings net text voice_id fmt w
    = (match success_of vs with
       | Some resp => Ok (content resp)
       | None => Raise (VoiceServiceError generic_message)
       end, w').
Proof.
  intros [Hne Hlen] req vs.
  destruct (for_loop_spec net _ _ _ _ (synthesize_attempt_spec net req)
              (enumerate schedule) None w)
    as (w1 & le1 & Hserved & Htrace & Hres).
  cbv zeta in Hserved, Htrace, Hres.
  rewrite enumerate_schedule_delays in Htrace.
  change (length (enumerate schedule)) with 4%nat in Hserved, Htrace, Hres.
  fold vs in Hserved, Htrace, Hres.
  unfold synthesize_speech.
  destruct (String.eqb_spec text ""); [contradiction |].
  destruct (Z.gtb_spec (Z.of_nat (String.length text)) 5000); [lia |].
  fold req. unfold bind.
  destruct (success_of vs) as [resp |]; destruct Hres as [Hrun Hcache];
    rewrite Hrun.
  - exists w1. auto.
  - eexists. split; [| split; [| split]]; cycle 3.
    + reflexivity.
    + exact Hserved.
    + exact Htrace.
    + exact Hcache.
Qed.

End CallFacts.

(** ** Verdicts from statuses *)

Section VerdictFacts.

Import voice Spec.

Variable net : nat -> Request -> Exchange.

Lemma verdict_429 (x : Exchange) :
  status_of x = Some 429 ->
  verdict x = Retries (RateLimitError "Rate limited").
Proof.
  unfold status_of, verdict. destruct (answer x) as [resp |]; simpl;
    [| discriminate].
  intros [= ->]. reflexivity.
Qed.

Lemma verdict_success (x : Exchange) (resp : Response) :
  answer x = Some resp -> is_success (status_code resp) = true ->
  verdict x = Succeeds resp.
Proof.
  unfold verdict, is_success. intros -> Hs.
  apply andb_prop in Hs as [Hlo Hhi].
  apply Z.leb_le in Hlo, Hhi.
  destruct (Z.eqb_spec (status_code resp) 429); [lia |].
  unfold is_success.
  rewrite (proj2 (Z.leb_le _ _) Hlo), (proj2 (Z.leb_le _ _) Hhi).
  reflexivity.
Qed.

Lemma verdict_client_error (x : Exchange) (s : Z) :
  status_of x = Some s -> 400 <= s < 500 -> s <> 429 ->
  verdict x = Aborts (HTTPStatusError s).
Proof.
  unfold status_of, verdict. destruct (answer x) as [resp |]; simpl;
    [| discriminate].
  intros [= <-] Hrange Hne.
  destruct (Z.eqb_spec (status_code resp) 429); [contradiction |].
  unfold is_success.
  destruct (Z.leb_spec 200 (status_code resp));
    destruct (Z.leb_spec (status_code resp) 299);
    destruct (Z.leb_spec 500 (status_code resp));
    destruct (Z.ltb_spec (status_code resp) 600); simpl; try lia;
    reflexivity.
Qed.

Lemma attempts_of_pos vs : vs <> [] -> (1 <= attempts_of vs)%nat.
Proof.
  destruct vs as [| [resp | e | e] vs]; simpl; intros H;
    [contradiction | lia ..].
Qed.

(** Retried [k] times, then stopped by the next exchange. *)
Lemma abort_after_retries (req : Request) (len : nat) :
  forall (n k : nat) (e : exn),
    (k < len)%nat ->
    (forall i, (i < k)%nat ->
               is_retry (verdict (net (n + i) req)) = true) ->
    verdict (net (n + k) req) = Aborts e ->
    attempts_of (verdicts net n req len) = S k /\
    success_of (verdicts net n req len) = None.
Proof.
  induction len as [| len IH]; intros n k e Hk Hretry Hlast; [lia |].
  simpl. destruct k as [| k].
  - rewrite Nat.add_0_r in Hlast. rewrite Hlast. auto.
  - pose proof (Hretry 0%nat ltac:(lia)) as H0.
    rewrite Nat.add_0_r in H0.
    destruct (verdict (net n req)) as [resp | e0 | e0]; try discriminate.
    destruct (IH (S n) k e) as [Ha Hs].
    + lia.
    + intros i Hi. specialize (Hretry (S i) ltac:(lia)).
      now rewrite <- Nat.add_succ_comm in Hretry.
    + now rewrite <- Nat.add_succ_comm in Hlast.
    + now rewrite Ha, Hs.
Qed.

(** Retried [k] times, then answered with success. *)
Lemma success_after_retries (req : Request) (len : nat) :
  forall (n k : nat) (resp : Response),
    (k < len)%nat ->
    (forall i, (i < k)%nat ->
               is_retry (verdict (net (n + i) req)) = true) ->
    verdict (net (n + k) req) = Succeeds resp ->
    attempts_of (verdicts net n req len) = S k /\
    success_of (verdicts net n req len) = Some resp.
Proof.
  induction len as [| len IH]; intros n k resp Hk Hretry Hlast; [lia |].
  simpl. destruct k as [| k].
  - rewrite Nat.add_0_r in Hlast. rewrite Hlast. auto.
  - pose proof (Hretry 0%nat ltac:(lia)) as H0.
    rewrite Nat.add_0_r in H0.
    destruct (verdict (net n req)) as [resp0 | e0 | e0]; try discriminate.
    destruct (IH (S n) k resp) as [Ha Hs].
    + lia.
    + intros i Hi. specialize (Hretry (S i) ltac:(lia)).
      now rewrite <- Nat.add_succ_comm in Hretry.
    + now rewrite <- Nat.add_succ_comm in Hlast.
    + now rewrite Ha, Hs.
Qed.

(** Every attempt made fails: either some exchange stops the loop after
    retries only, or all of them are retried. *)
Lemma all_attempts_fail_cases (vs : list Verdict) :
  all_attempts_fail vs = true <->
  (exists k e, nth_error vs k = Some (Aborts e) /\
               forall i, (i < k)%nat ->
                         exists e', nth_error vs i = Some (Retries e')) \/
  Forall (fun v => is_retry v = true) vs.
Proof.
  induction vs as [| v vs IH].
  - simpl. split; auto.
  - destruct v as [resp | e | e]; simpl.
    + split; [discriminate |].
      intros [(k & e & Hk & Hbefore) | Hall].
      * destruct k as [| k]; [discriminate |].
        destruct (Hbefore 0%nat ltac:(lia)) as [e' He']. discriminate.
      * inversion Hall. discriminate.
    + rewrite IH. split.
      * intros [(k & e0 & Hk & Hbefore) | Hall].
        -- left. exists (S k), e0. split; [exact Hk |].
           intros [| i] Hi; simpl; [eauto | apply Hbefore; lia].
        -- right. constructor; auto.
      * intros [(k & e0 & Hk & Hbefore) | Hall].
        -- destruct k as [| k]; [discriminate |].
           left. exists k, e0. split; [exact Hk |].
           intros i Hi. apply (Hbefore (S i)). lia.
        -- right. now inversion Hall.
    + split; [| reflexivity].
      intros _. left. exists 0%nat, e. split; [reflexivity |].
      intros i Hi. lia.
Qed.

End VerdictFacts.

(** ** The cache *)

Section CacheFacts.

Import voice Spec Lqa.

Lemma Qgt_bool_false (a b : Q) : Qgt_bool a b = false <-> (a <= b)%Q.
Proof.
  unfold Qgt_bool. rewrite negb_false_iff. apply Qle_bool_iff.
Qed.

Lemma Qgt_bool_true (a b : Q) : Qgt_bool a b = true <-> ~ (a <= b)%Q.
Proof.
  unfold Qgt_bool. rewrite negb_true_iff, <- Qle_bool_iff.
  destruct (Qle_bool a b); split; congruence.
Qed.

Lemma cache_get_some (c : _VoicesCache) (now : Q) (v : list Voice) :
  cache_get c now = Some v
  <-> value c = Some v /\ (now - ts c <= ttl c)%Q.
Proof.
  unfold cache_get. destruct (value c) as [v0 |].
  - destruct (Qgt_bool (now - ts c) (ttl c)) eqn:Hgt.
    + apply Qgt_bool_true in Hgt. split; [discriminate | tauto].
    + apply Qgt_bool_false in Hgt. split; [intros [= ->] | intros [[= ->] _]];
        auto.
  - split; [discriminate | intros [[=] _]].
Qed.

Lemma cache_get_none (c : _VoicesCache) (now : Q) :
  cache_get c now = None
  <-> value c = None \/ ~ (now - ts c <= ttl c)%Q.
Proof.
  unfold cache_get. destruct (value c) as [v0 |].
  - destruct (Qgt_bool (now - ts c) (ttl c)) eqn:Hgt.
    + apply Qgt_bool_true in Hgt. split; auto.
    + apply Qgt_bool_false in Hgt. split; [discriminate |].
      intros [[=] | Hn]. contradiction.
  - split; auto.
Qed.

(** Stale stays stale as time goes on. *)
Lemma cache_get_none_later (c : _VoicesCache) (t1 t2 : Q) :
  cache_get c t1 = None -> (t1 <= t2)%Q -> cache_get c t2 = None.
Proof.
  rewrite !cache_get_none. intros [Hv | Hold] Hle; [now left | right].
  intros H2. apply Hold. lra.
Qed.

End CacheFacts.

(** ** The claims about voice.py *)

Section VoiceFacts.

Import voice Spec.

Variable settings : Settings.
Variable net : nat -> Request -> Exchange.

Lemma run_events_0 (req : Request) : run_events req 0 = [].
Proof. reflexivity. Qed.

Lemma run_events_4 (req : Request) :
  run_events req 4
  = [Sent req; Slept (1 # 2); Sent req; Slept 1; Sent req; Slept 2; Sent req].
Proof. reflexivity. Qed.

Lemma run_events_first (req : Request) (n : nat) :
  (1 <= n)%nat -> exists rest, run_events req n = Sent req :: rest.
Proof.
  destruct n as [| n]; [lia |]. intros _.
  unfold run_events, schedule. simpl. eauto.
Qed.

Lemma verdicts_429x3_then_ok (req : Request) (n : nat) (r4 : Response) :
  (forall i, (i < 3)%nat -> status_of (net (n + i) req) = Some 429) ->
  answer (net (n + 3) req) = Some r4 ->
  is_success (status_code r4) = true ->
  attempts_of (verdicts net n req 4) = 4%nat /\
  success_of (verdicts net n req 4) = Some r4.
Proof.
  intros H429 Hans Hok.
  apply (success_after_retries net req 4 n 3 r4); [lia | |].
  - intros i Hi. rewrite (verdict_429 _ (H429 i Hi)). reflexivity.
  - now apply verdict_success.
Qed.

(** Bad text: the exception, and the world as it was. *)
Lemma synthesize_speech_invalid (text voice_id fmt : string) (w : World) :
  ~ valid_text text ->
  exists msg,
    synthesize_speech settings net text voice_id fmt w
    = (Raise (InvalidInputError msg), w).
Proof.
  intros Hbad. unfold synthesize_speech.
  destruct (String.eqb_spec text "") as [-> | Hne]; [eexists; reflexivity |].
  destruct (Z.gtb_spec (Z.of_nat (String.length text)) 5000) as [Hlong | Hok];
    [eexists; reflexivity |].
  exfalso. apply Hbad. split; [exact Hne | lia].
Qed.

Lemma valid_text_dec (text : string) : {valid_text text} + {~ valid_text text}.
Proof.
  unfold valid_text.
  destruct (string_dec text ""); [right; tauto |].
  destruct (le_dec (String.length text) 5000); [left; tauto | right; tauto].
Qed.

(** What a call of [get_voices] leaves behind, hit or miss. *)
Lemma get_voices_footprint (w : World) :
  exists (r : result (list Voice)) (w' : World) (n : nat),
    get_voices settings net w = (r, w') /\
    (n <= 4)%nat /\
    served w' = (served w + n)%nat /\
    trace w' = trace w ++ run_events (voices_request settings) n /\
    ttl (cache w') = ttl (cache w) /\
    (cache_get (cache w) (clock w) = None -> (1 <= n)%nat).
Proof.
  destruct (cache_get (cache w) (clock w)) as [v |] eqn:Hget.
  - exists (Ok v), w, 0%nat. rewrite (get_voices_hit settings net w v Hget).
    rewrite run_events_0, app_nil_r, Nat.add_0_r.
    repeat split; auto; try lia. discriminate.
  - destruct (get_voices_miss settings net w Hget)
      as (w' & Hserved & Htrace & Hres).
    cbv zeta in Hserved, Htrace, Hres.
    set (vs := verdicts net (served w) (voices_request settings) 4) in *.
    assert (Hle : (attempts_of vs <= 4)%nat).
    { pose proof (attempts_of_le vs) as H. subst vs.
      now rewrite verdicts_length in H. }
    assert (Hpos : (1 <= attempts_of vs)%nat).
    { apply attempts_of_pos. subst vs. simpl. discriminate. }
    destruct (success_of vs) as [resp |];
      [destruct (voices_of_body settings (json resp)) |];
      destruct Hres as [Hrun Hcache];
      eexists; exists w', (attempts_of vs);
      (split; [exact Hrun |]); rewrite Hcache; repeat split; auto.
Qed.

End VoiceFacts.

Section VoiceClaims.

Import voice Spec.

Variable settings : Settings.
Variable net : nat -> Request -> Exchange.

(** C1. Both loops run over the delays 0, 0.5, 1, 2: a call makes at most
    four attempts, and what it adds to the trace is the start of
    request, sleep 0.5, request, sleep 1, request, sleep 2, request (no
    sleep before the first request).  When the first three attempts are
    answered 429 and the fourth with a 2xx status, the call ends with
    what the fourth response gives (for [get_voices] the outcome of
    reading its body, for [synthesize_speech] the bytes of its content)
    after the whole of that trace; the delays between attempts,
    0.5 < 1 < 2, increase strictly. *)
Theorem retry_schedule_and_recovery :
  schedule = [0; 1 # 2; 1; 2]%Q /\
  (forall req : Request,
      run_events req 4
      = [Sent req; Slept (1 # 2); Sent req; Slept 1; Sent req; Slept 2;
         Sent req]) /\
  (forall w : World,
      exists n : nat,
        (n <= 4)%nat /\
        served (snd (get_voices settings net w)) = (served w + n)%nat /\
        trace (snd (get_voices settings net w))
        = trace w ++ run_events (voices_request settings) n) /\
  (forall (text voice_id fmt : string) (w : World),
      exists n : nat,
        (n <= 4)%nat /\
        served (snd (synthesize_speech settings net text voice_id fmt w))
        = (served w + n)%nat /\
        trace (snd (synthesize_speech settings net text voice_id fmt w))
        = trace w ++ run_events (tts_request settings text voice_id fmt) n) /\
  (forall (w : World) (r4 : Response),
      let req := voices_request settings in
      cache_get (cache w) (clock w) = None ->
      (forall i, (i < 3)%nat ->
                 status_of (net (served w + i) req) = Some 429) ->
      answer (net (served w + 3) req) = Some r4 ->
      is_success (status_code r4) = true ->
      fst (get_voices settings net w)
      = voices_of_body settings (json r4) /\
      trace (snd (get_voices settings net w))
      = trace w ++ run_events req 4) /\
  (forall (text voice_id fmt : string) (w : World) (r4 : Response),
      let req := tts_request settings text voice_id fmt in
      valid_text text ->
      (forall i, (i < 3)%nat ->
                 status_of (net (served w + i) req) = Some 429) ->
      answer (net (served w + 3) req) = Some r4 ->
      is_success (status_code r4) = true ->
      fst (synthesize_speech settings net text voice_id fmt w)
      = Ok (content r4) /\
      trace (snd (synthesize_speech settings net text voice_id fmt w))
      = trace w ++ run_events req 4) /\
  StronglySorted Qlt backoffs.
Proof.
  split; [reflexivity |].
  split; [intros req; apply run_events_4 |].
  split.
  { intros w.
    destruct (get_voices_footprint settings net w)
      as (r & w' & n & Hrun & Hn & Hserved & Htrace & _).
    exists n. rewrite Hrun. auto. }
  split.
  { intros text voice_id fmt w.
    destruct (valid_text_dec text) as [Hvalid | Hbad].
    - destruct (synthesize_speech_run settings net text voice_id fmt w Hvalid)
        as (w' & Hserved & Htrace & _ & Hrun).
      cbv zeta in Hserved, Htrace, Hrun.
      set (vs := verdicts net (served w)
                   (tts_request settings text voice_id fmt) 4) in *.
      exists (attempts_of vs). rewrite Hrun. simpl.
      split; [| auto].
      pose proof (attempts_of_le vs) as H. subst vs.
      now rewrite verdicts_length in H.
    - destruct (synthesize_speech_invalid settings net text voice_id fmt w
                  Hbad) as [msg Hrun].
      exists 0%nat. rewrite Hrun. simpl.
      rewrite run_events_0, app_nil_r, Nat.add_0_r. auto with arith. }
  split.
  { intros w r4 req Hmiss H429 Hans Hok.
    destruct (verdicts_429x3_then_ok net req (served w) r4 H429 Hans Hok)
      as [Hatt Hsucc].
    destruct (get_voices_miss settings net w Hmiss)
      as (w' & _ & Htrace & Hres).
    cbv zeta in Htrace, Hres. fold req in Htrace, Hres.
    rewrite Hsucc in Hres. rewrite Hatt in Htrace.
    destruct (voices_of_body settings (json r4));
      destruct Hres as [Hrun _]; rewrite Hrun; auto. }
  split.
  { intros text voice_id fmt w r4 req Hvalid H429 Hans Hok.
    destruct (verdicts_429x3_then_ok net req (served w) r4 H429 Hans Hok)
      as [Hatt Hsucc].
    destruct (synthesize_speech_run settings net text voice_id fmt w Hvalid)
      as (w' & _ & Htrace & _ & Hrun).
    cbv zeta in Htrace, Hrun. fold req in Htrace, Hrun.
    rewrite Hsucc in Hrun. rewrite Hatt in Htrace.
    rewrite Hrun. auto. }
  unfold backoffs.
  repeat (constructor; try reflexivity).
Qed.

(** X23. When the cache misses and every attempt that is made fails (429,
    an error status or a transport error, until the attempts run out or a
    status stops the loop), [get_voices] returns the one-element list
    [{id: default voice id, name: "Default", labels: {}}] and leaves the
    cache as it was; so a later call that finds this cache, at a time that
    is not earlier, sends a request again. *)
Theorem get_voices_fallback_on_failure (w : World) :
  cache_get (cache w) (clock w) = None ->
  all_attempts_fail
    (verdicts net (served w) (voices_request settings) 4) = true ->
  exists w' : World,
    get_voices settings net w
    = (Ok [ {| id := PStr (default_voice_id settings);
               name := PStr "Default";
               labels := PDict [] |} ], w') /\
    cache w' = cache w /\
    forall w2 : World,
      cache w2 = cache w' -> (clock w <= clock w2)%Q ->
      (served w2 < served (snd (get_voices settings net w2)))%nat /\
      exists rest,
        trace (snd (get_voices settings net w2))
        = trace w2 ++ Sent (voices_request settings) :: rest.
Proof.
  intros Hmiss Hfail.
  apply all_attempts_fail_iff in Hfail.
  destruct (get_voices_miss settings net w Hmiss) as (w' & _ & _ & Hres).
  cbv zeta in Hres. rewrite Hfail in Hres. destruct Hres as [Hrun Hcache].
  exists w'. split; [exact Hrun |]. split; [exact Hcache |].
  intros w2 Hsame Hlater.
  assert (Hmiss2 : cache_get (cache w2) (clock w2) = None).
  { rewrite Hsame, Hcache. now apply cache_get_none_later with (clock w). }
  destruct (get_voices_footprint settings net w2)
    as (r2 & w2' & n & Hrun2 & _ & Hserved & Htrace & _ & Hpos).
  specialize (Hpos Hmiss2). rewrite Hrun2. simpl.
  split; [lia |].
  destruct (run_events_first (voices_request settings) n Hpos) as [rest Hr].
  exists rest. now rewrite Htrace, Hr.
Qed.

(** C2. [get_voices] does raise: when the cache misses and an attempt,
    reached after retried ones only, is answered with a 2xx status and a
    body that the code cannot read (no JSON, no object, a value under
    [voices] that is no list of objects), the exception of the reading
    leaves [get_voices], since lines 83-91 are inside the [try] and no
    [except] clause matches; no fallback is returned and the cache is as
    it was. *)
Theorem get_voices_raises_on_unreadable_body
  (w : World) (k : nat) (resp : Response) (e : exn) :
  cache_get (cache w) (clock w) = None ->
  (k < 4)%nat ->
  (forall i, (i < k)%nat ->
             is_retry (verdict (net (served w + i) (voices_request settings)))
             = true) ->
  answer (net (served w + k) (voices_request settings)) = Some resp ->
  is_success (status_code resp) = true ->
  voices_of_body settings (json resp) = Raise e ->
  exists w' : World,
    get_voices settings net w = (Raise e, w') /\
    cache w' = cache w /\
    (e = JSONDecodeError \/ e = AttributeError \/ e = TypeError).
Proof.
  intros Hmiss Hk Hretry Hans Hok Hread.
  destruct (success_after_retries net (voices_request settings) 4 (served w)
              k resp Hk Hretry (verdict_success _ _ Hans Hok))
    as [_ Hsucc].
  destruct (get_voices_miss settings net w Hmiss) as (w' & _ & _ & Hres).
  cbv zeta in Hres. rewrite Hsucc, Hread in Hres.
  destruct Hres as [Hrun Hcache].
  exists w'. split; [exact Hrun |]. split; [exact Hcache |].
  exact (voices_of_body_raises settings _ _ Hread).
Qed.

(** C3. [get()] returns the stored list iff one is stored and
    now - ts <= ttl, and [None] otherwise; the ttl is 600 seconds and no
    call changes it.  After a call of [get_voices] that fetched with
    success (a 2xx answer whose body was read), a call that finds this
    cache within 600 seconds of the store returns the same list and leaves
    the world as it was (no request, no sleep); a call that finds it later
    sends a request. *)
Theorem cache_ttl_window :
  (forall (c : _VoicesCache) (now : Q) (v : list Voice),
      cache_get c now = Some v
      <-> value c = Some v /\ (now - ts c <= ttl c)%Q) /\
  (forall (c : _VoicesCache) (now : Q),
      cache_get c now = None
      <-> value c = None \/ ~ (now - ts c <= ttl c)%Q) /\
  ttl _voices_cache = 600%Q /\
  (forall w : World,
      ttl (cache (snd (get_voices settings net w))) = ttl (cache w)) /\
  (forall (w : World) (resp : Response) (voices : list Voice),
      cache_get (cache w) (clock w) = None ->
      ttl (cache w) = 600%Q ->
      success_of (verdicts net (served w) (voices_request settings) 4)
      = Some resp ->
      voices_of_body settings (json resp) = Ok voices ->
      exists w1 : World,
        get_voices settings net w = (Ok voices, w1) /\
        (served w < served w1)%nat /\
        value (cache w1) = Some voices /\
        ts (cache w1) = clock w1 /\
        (forall w2 : World,
            cache w2 = cache w1 ->
            (clock w2 - ts (cache w1) <= 600)%Q ->
            get_voices settings net w2 = (Ok voices, w2)) /\
        (forall w2 : World,
            cache w2 = cache w1 ->
            ~ (clock w2 - ts (cache w1) <= 600)%Q ->
            (served w2 < served (snd (get_voices settings net w2)))%nat /\
            exists rest,
              trace (snd (get_voices settings net w2))
              = trace w2 ++ Sent (voices_request settings) :: rest)).
Proof.
  split; [exact cache_get_some |].
  split; [exact cache_get_none |].
  split; [reflexivity |].
  split.
  { intros w.
    destruct (get_voices_footprint settings net w)
      as (r & w' & n & Hrun & _ & _ & _ & Httl & _).
    now rewrite Hrun. }
  intros w resp voices Hmiss Httl Hsucc Hread.
  destruct (get_voices_miss settings net w Hmiss)
    as (w1 & Hserved & _ & Hres).
  cbv zeta in Hserved, Hres. rewrite Hsucc, Hread in Hres.
  destruct Hres as [Hrun Hcache].
  exists w1.
  split; [exact Hrun |].
  split.
  { rewrite Hserved.
    assert (1 <= attempts_of
                   (verdicts net (served w) (voices_request settings) 4))%nat
      by (apply attempts_of_pos; simpl; discriminate).
    lia. }
  split; [now rewrite Hcache |].
  split; [now rewrite Hcache |].
  split.
  - intros w2 Hsame Hfresh. apply get_voices_hit.
    rewrite Hsame. apply cache_get_some.
    rewrite Hcache in Hfresh |- *. simpl in Hfresh |- *.
    rewrite Httl. auto.
  - intros w2 Hsame Hstale.
    assert (Hmiss2 : cache_get (cache w2) (clock w2) = None).
    { rewrite Hsame. apply cache_get_none. right.
      rewrite Hcache in Hstale |- *. simpl in Hstale |- *.
      now rewrite Httl. }
    destruct (get_voices_footprint settings net w2)
      as (r2 & w2' & n & Hrun2 & _ & Hserved2 & Htrace2 & _ & Hpos).
    specialize (Hpos Hmiss2). rewrite Hrun2. simpl.
    split; [lia |].
    destruct (run_events_first (voices_request settings) n Hpos)
      as [rest Hr].
    exists rest. now rewrite Htrace2, Hr.
Qed.

End VoiceClaims.

Section FailureClaims.

Import voice Spec.

Variable settings : Settings.
Variable net : nat -> Request -> Exchange.

(** C5. In both loops, an attempt answered with a 4xx status other than
    429 is the last one: when the k attempts before it (k < 4) were
    retried and attempt k+1 gets such a status, the call has sent k+1
    requests and slept only before them, nothing after, and it ends in
    final failure: [get_voices] returns the fallback with the cache as it
    was, [synthesize_speech] raises [VoiceServiceError]. *)
Theorem client_error_stops_retrying :
  (forall (w : World) (k : nat) (s : Z),
      let req := voices_request settings in
      cache_get (cache w) (clock w) = None ->
      (k < 4)%nat ->
      (forall i, (i < k)%nat ->
                 is_retry (verdict (net (served w + i) req)) = true) ->
      status_of (net (served w + k) req) = Some s ->
      400 <= s < 500 -> s <> 429 ->
      exists w' : World,
        get_voices settings net w = (Ok (fallback settings), w') /\
        cache w' = cache w /\
        served w' = (served w + (k + 1))%nat /\
        trace w' = trace w ++ run_events req (k + 1)) /\
  (forall (text voice_id fmt : string) (w : World) (k : nat) (s : Z),
      let req := tts_request settings text voice_id fmt in
      valid_text text ->
      (k < 4)%nat ->
      (forall i, (i < k)%nat ->
                 is_retry (verdict (net (served w + i) req)) = true) ->
      status_of (net (served w + k) req) = Some s ->
      400 <= s < 500 -> s <> 429 ->
      exists w' : World,
        synthesize_speech settings net text voice_id fmt w
        = (Raise (VoiceServiceError generic_message), w') /\
        served w' = (served w + (k + 1))%nat /\
        trace w' = trace w ++ run_events req (k + 1)).
Proof.
  split.
  - intros w k s req Hmiss Hk Hretry Hstatus Hrange Hne.
    destruct (abort_after_retries net req 4 (served w) k (HTTPStatusError s)
                Hk Hretry (verdict_client_error _ s Hstatus Hrange Hne))
      as [Hatt Hsucc].
    destruct (get_voices_miss settings net w Hmiss)
      as (w' & Hserved & Htrace & Hres).
    cbv zeta in Hserved, Htrace, Hres. fold req in Hserved, Htrace, Hres.
    rewrite Hsucc in Hres. rewrite Hatt in Hserved, Htrace.
    destruct Hres as [Hrun Hcache].
    exists w'. replace (k + 1)%nat with (S k) by lia. auto.
  - intros text voice_id fmt w k s req Hvalid Hk Hretry Hstatus Hrange Hne.
    destruct (abort_after_retries net req 4 (served w) k (HTTPStatusError s)
                Hk Hretry (verdict_client_error _ s Hstatus Hrange Hne))
      as [Hatt Hsucc].
    destruct (synthesize_speech_run settings net text voice_id fmt w Hvalid)
      as (w' & Hserved & Htrace & _ & Hrun).
    cbv zeta in Hserved, Htrace, Hrun. fold req in Hserved, Htrace, Hrun.
    rewrite Hsucc in Hrun. rewrite Hatt in Hserved, Htrace.
    exists w'. replace (k + 1)%nat with (S k) by lia. auto.
Qed.

(** C6. [synthesize_speech] on an empty text, or on a text of more than
    5000 characters, raises [InvalidInputError] and leaves the world as it
    was: no request is sent, no sleep is made. *)
Theorem synthesize_rejects_invalid_text
  (text voice_id fmt : string) (w : World) :
  text = "" \/ (5000 < String.length text)%nat ->
  exists msg : string,
    synthesize_speech settings net text voice_id fmt w
    = (Raise (InvalidInputError msg), w) /\
    served (snd (synthesize_speech settings net text voice_id fmt w))
    = served w /\
    trace (snd (synthesize_speech settings net text voice_id fmt w))
    = trace w.
Proof.
  intros Hbad.
  destruct (synthesize_speech_invalid settings net text voice_id fmt w)
    as [msg Hrun].
  - intros [Hne Hlen]. destruct Hbad; [contradiction | lia].
  - exists msg. rewrite Hrun. auto.
Qed.

(** C8, amended. The id of a normalised entry is the entry's [voice_id]
    when that is truthy and its [id] otherwise ([None] when the key is
    missing); it is a non-empty string exactly when [voice_id] is one, or
    [voice_id] is falsy and [id] is one.  The name is the entry's name
    when truthy and "Unnamed" otherwise, so never falsy; the labels are
    the entry's labels when truthy and [None] otherwise. *)
Theorem normalize_fields (v : dict) :
  let vid := dict_get v "voice_id" in
  let idf := dict_get v "id" in
  id (normalize v) = (if truthy vid then vid else idf) /\
  (nonempty_str (id (normalize v)) = true
   <-> nonempty_str vid = true
       \/ (truthy vid = false /\ nonempty_str idf = true)) /\
  name (normalize v)
  = (if truthy (dict_get v "name") then dict_get v "name"
     else PStr "Unnamed") /\
  truthy (name (normalize v)) = true /\
  labels (normalize v)
  = (if truthy (dict_get v "labels") then dict_get v "labels" else PNone).
Proof.
  intros vid idf. unfold normalize, py_or. simpl. fold vid idf.
  split; [reflexivity |].
  split.
  - destruct (truthy vid) eqn:Hvid.
    + split; [tauto |]. intros [H | [H _]]; [exact H | discriminate].
    + split; [tauto |]. intros [H | [_ H]]; [| exact H].
      destruct vid; simpl in *; try discriminate. congruence.
  - split; [reflexivity |]. split; [| reflexivity].
    destruct (truthy (dict_get v "name")) eqn:Hn; [exact Hn | reflexivity].
Qed.

(** C9, amended. [synthesize_speech] raises [VoiceServiceError] exactly
    when the text is valid and every attempt that is made fails: all four
    are retried, or one is stopped by a status that is not retried, be it
    the first.  The message is the fixed one whatever the network
    answered, and this is the only exception raised for a valid text. *)
Theorem synthesize_final_failure
  (text voice_id fmt : string) (w : World) :
  let vs :=
    verdicts net (served w) (tts_request settings text voice_id fmt) 4 in
  let r := synthesize_speech settings net text voice_id fmt w in
  (fst r = Raise (VoiceServiceError generic_message)
   <-> valid_text text /\ all_attempts_fail vs = true) /\
  (forall msg, fst r = Raise (VoiceServiceError msg) ->
               msg = generic_message) /\
  (forall e, fst r = Raise e ->
             (exists msg, e = InvalidInputError msg /\ ~ valid_text text) \/
             e = VoiceServiceError generic_message) /\
  (Forall (fun v => is_retry v = true) vs /\ valid_text text ->
   fst r = Raise (VoiceServiceError generic_message) /\
   served (snd r) = (served w + 4)%nat).
Proof.
  intros vs r.
  destruct (valid_text_dec text) as [Hvalid | Hbad].
  - destruct (synthesize_speech_run settings net text voice_id fmt w Hvalid)
      as (w' & Hserved & _ & _ & Hrun).
    cbv zeta in Hserved, Hrun. fold vs in Hserved, Hrun. fold r in Hrun.
    assert (Hvs : vs = verdicts net (served w)
                         (tts_request settings text voice_id fmt) 4)
      by reflexivity.
    clearbody vs r. rewrite Hrun. cbn [fst snd].
    rewrite all_attempts_fail_iff.
    destruct (success_of vs) as [resp |] eqn:Hsucc.
    + split; [split; [discriminate | intros [_ [=]]] |].
      split; [discriminate |]. split; [discriminate |].
      intros [Hall _]. exfalso.
      assert (Hnone : success_of vs = None).
      { apply all_attempts_fail_iff, all_attempts_fail_cases. now right. }
      congruence.
    + split; [tauto |].
      split; [now intros msg [= <-] |].
      split; [intros e [= <-]; now right |].
      intros [Hall _]. split; [reflexivity |].
      rewrite Hserved. f_equal.
      assert (Hlen : length vs = 4%nat) by (rewrite Hvs; apply verdicts_length).
      clear Hvs Hserved Hrun.
      do 5 (destruct vs as [| ? vs]; try discriminate Hlen).
      simpl in Hsucc |- *.
      repeat match goal with
             | H : Forall _ (_ :: _) |- _ => inversion H; subst; clear H
             end.
      repeat match goal with
             | H : is_retry ?v = true |- _ =>
                 destruct v; try discriminate H; clear H
             end.
      reflexivity.
  - destruct (synthesize_speech_invalid settings net text voice_id fmt w
                Hbad) as [msg Hrun].
    fold r in Hrun. clearbody r. rewrite Hrun. cbn [fst snd].
    split; [split; [discriminate | tauto] |].
    split; [discriminate |].
    split; [intros e [= <-]; left; eauto |].
    tauto.
Qed.

End FailureClaims.

(** ** Concrete runs *)

Section ConcreteRuns.

Import Main voice Spec Sample.

Lemma a_times_length (n : nat) : String.length (a_times n) = n.
Proof.
  induction n as [| n IH]; simpl; [| rewrite IH]; reflexivity.
Qed.

(** Three times 429, then 200: both calls return what the fourth
    response carries. *)
Lemma retry_schedule_and_recovery_witness :
  fst (get_voices settings net_429x3_then_ok initial_world)
  = Ok [ {| id := PStr "v1"; name := PStr "Anna"; labels := PNone |};
         {| id := PStr "v2"; name := PStr "Unnamed"; labels := PNone |} ] /\
  fst (synthesize_speech settings net_429x3_then_ok "hi" "v1" "mp3"
         initial_world)
  = Ok [Byte.x49; Byte.x44; Byte.x33].
Proof.
  destruct (retry_schedule_and_recovery settings net_429x3_then_ok)
    as (_ & _ & _ & _ & Hget & Hsyn & _).
  split.
  - refine (proj1 (Hget initial_world
                     {| status_code := 200; json := Some two_entries;
                        content := [Byte.x49; Byte.x44; Byte.x33] |}
                     _ _ _ _)).
    + reflexivity.
    + intros i Hi. destruct i as [| [| [| i]]]; try reflexivity. lia.
    + reflexivity.
    + reflexivity.
  - refine (proj1 (Hsyn "hi" "v1" "mp3" initial_world
                     {| status_code := 200; json := Some two_entries;
                        content := [Byte.x49; Byte.x44; Byte.x33] |}
                     _ _ _ _)).
    + split; [discriminate | simpl; lia].
    + intros i Hi. destruct i as [| [| [| i]]]; try reflexivity. lia.
    + reflexivity.
    + reflexivity.
Defined.

(** 200 with the JSON array [[]] as body, and 200 with a body that is
    not JSON: the call raises. *)
Lemma get_voices_raises_on_unreadable_body_witness :
  fst (get_voices settings net_array_body initial_world)
  = Raise AttributeError /\
  fst (get_voices settings net_not_json initial_world)
  = Raise JSONDecodeError.
Proof.
  split.
  - destruct (get_voices_raises_on_unreadable_body settings net_array_body
                initial_world 0
                {| status_code := 200; json := Some (PList []);
                   content := [] |} AttributeError)
      as (w' & Hrun & _).
    + reflexivity.
    + lia.
    + intros i Hi. lia.
    + reflexivity.
    + reflexivity.
    + reflexivity.
    + now rewrite Hrun.
  - destruct (get_voices_raises_on_unreadable_body settings net_not_json
                initial_world 0
                {| status_code := 200; json := None; content := [] |}
                JSONDecodeError)
      as (w' & Hrun & _).
    + reflexivity.
    + lia.
    + intros i Hi. lia.
    + reflexivity.
    + reflexivity.
    + reflexivity.
    + now rewrite Hrun.
Defined.

(** 503 on every request: the fallback, and nothing cached. *)
Lemma get_voices_fallback_on_failure_witness :
  fst (get_voices settings net_503 initial_world)
  = Ok [ {| id := PStr "v0"; name := PStr "Default"; labels := PDict [] |} ]
  /\ cache (snd (get_voices settings net_503 initial_world)) = _voices_cache.
Proof.
  destruct (get_voices_fallback_on_failure settings net_503 initial_world)
    as (w' & Hrun & Hcache & _).
  - reflexivity.
  - reflexivity.
  - rewrite Hrun. split; [reflexivity | exact Hcache].
Defined.

(** 200 at once: the list is stored, and a call 600 seconds after the
    store returns it without touching the world. *)
Lemma cache_ttl_window_witness :
  exists (voices : list Voice) (w1 : World),
    get_voices settings net_ok initial_world = (Ok voices, w1) /\
    get_voices settings net_ok
      {| cache := cache w1; clock := (clock w1 + 600)%Q; served := served w1;
         trace := trace w1; log := log w1 |}
    = (Ok voices,
       {| cache := cache w1; clock := (clock w1 + 600)%Q;
          served := served w1; trace := trace w1; log := log w1 |}).
Proof.
  destruct (proj2 (proj2 (proj2 (proj2 (cache_ttl_window settings net_ok))))
              initial_world
              {| status_code := 200; json := Some two_entries;
                 content := [Byte.x49; Byte.x44; Byte.x33] |}
              [ {| id := PStr "v1"; name := PStr "Anna"; labels := PNone |};
                {| id := PStr "v2"; name := PStr "Unnamed";
                   labels := PNone |} ])
    as (w1 & Hrun & _ & _ & Hts & Hfresh & _).
  - reflexivity.
  - reflexivity.
  - reflexivity.
  - reflexivity.
  - eexists; exists w1. split; [exact Hrun |].
    apply Hfresh; [reflexivity |]. rewrite Hts. simpl.
    unfold Qle, Qminus, Qplus, Qopp. simpl. lia.
Defined.

(** 400 on the first request: one request, no sleep, final failure.
    503, 503, 400: three requests, the two sleeps between them, final
    failure. *)
Lemma client_error_stops_retrying_witness :
  (exists w' : World,
      get_voices settings net_400 initial_world
      = (Ok (fallback settings), w') /\
      served w' = 1%nat /\
      trace w' = [Sent (voices_request settings)]) /\
  (exists w' : World,
      synthesize_speech settings net_503x2_then_400 "hi" "v1" "mp3"
        initial_world
      = (Raise (VoiceServiceError generic_message), w') /\
      served w' = 3%nat /\
      trace w'
      = [Sent (tts_request settings "hi" "v1" "mp3"); Slept (1 # 2);
         Sent (tts_request settings "hi" "v1" "mp3"); Slept 1;
         Sent (tts_request settings "hi" "v1" "mp3")]).
Proof.
  split.
  - destruct (proj1 (client_error_stops_retrying settings net_400)
                initial_world 0%nat 400) as (w' & Hrun & _ & Hs & Ht).
    + reflexivity.
    + lia.
    + intros i Hi. lia.
    + reflexivity.
    + lia.
    + lia.
    + exists w'. split; [exact Hrun |]. split; [exact Hs | exact Ht].
  - destruct (proj2 (client_error_stops_retrying settings net_503x2_then_400)
                "hi" "v1" "mp3" initial_world 2%nat 400)
      as (w' & Hrun & Hs & Ht).
    + split; [discriminate | simpl; lia].
    + lia.
    + intros i Hi. destruct i as [| [| i]]; try reflexivity. lia.
    + reflexivity.
    + lia.
    + lia.
    + exists w'. split; [exact Hrun |]. split; [exact Hs | exact Ht].
Defined.

(** The empty text and a text of 5001 characters. *)
Lemma synthesize_rejects_invalid_text_witness :
  (exists msg,
      synthesize_speech settings net_ok "" "v1" "mp3" initial_world
      = (Raise (InvalidInputError msg), initial_world)) /\
  (exists msg,
      synthesize_speech settings net_ok (a_times (S 5000)) "v1" "mp3"
        initial_world
      = (Raise (InvalidInputError msg), initial_world)).
Proof.
  split.
  - destruct (synthesize_rejects_invalid_text settings net_ok "" "v1" "mp3"
                initial_world) as (msg & Hrun & _).
    + left. reflexivity.
    + exists msg. exact Hrun.
  - destruct (synthesize_rejects_invalid_text settings net_ok
                (a_times (S 5000)) "v1" "mp3" initial_world)
      as (msg & Hrun & _).
    + right. rewrite a_times_length. lia.
    + exists msg. exact Hrun.
Defined.

(** 503 on every request: all four attempts are consumed. *)
Lemma synthesize_final_failure_witness :
  fst (synthesize_speech settings net_503 "hi" "v1" "mp3" initial_world)
  = Raise (VoiceServiceError generic_message) /\
  served (snd (synthesize_speech settings net_503 "hi" "v1" "mp3"
                 initial_world)) = 4%nat.
Proof.
  apply (proj2 (proj2 (proj2
           (synthesize_final_failure settings net_503 "hi" "v1" "mp3"
              initial_world)))).
  split.
  - repeat constructor.
  - split; [discriminate | simpl; lia].
Defined.

(** C9 as stated fails: 400 on the first request raises
    [VoiceServiceError] after one attempt, not four. *)
Lemma service_error_after_one_attempt :
  fst (synthesize_speech settings net_400 "hi" "v1" "mp3" initial_world)
  = Raise (VoiceServiceError generic_message) /\
  served (snd (synthesize_speech settings net_400 "hi" "v1" "mp3"
                 initial_world)) = 1%nat /\
  served (snd (synthesize_speech settings net_400 "hi" "v1" "mp3"
                 initial_world)) <> 4%nat.
Proof.
  split; [reflexivity |]. split; [reflexivity | discriminate].
Qed.

(** C8 as stated fails: an entry with neither [voice_id] nor [id] is
    normalised to a voice whose id is [None]. *)
Lemma normalize_without_identifier :
  id (normalize [("name", PStr "Anna")]) = PNone /\
  nonempty_str (id (normalize [("name", PStr "Anna")])) = false.
Proof. split; reflexivity. Qed.

(** The same entry through the whole call. *)
Example get_voices_without_identifier :
  fst (get_voices settings net_no_id initial_world)
  = Ok [ {| id := PNone; name := PStr "Anna"; labels := PNone |} ].
Proof. reflexivity. Qed.

(** Page 1 of nine voices. *)
Lemma paginate_navigation_row_witness :
  0 < 8 /\
  _paginate_buttons py_str nine_voices 1 8
  = Ok ([ [mkButton (PStr "i") "pick:i"];
          [prev_button 1; refresh_button] ], 2).
Proof.
  split; [lia |].
  exact (proj1 (paginate_navigation_row py_str nine_voices 1 8 ltac:(lia))).
Defined.

(** Page -2 of nine voices: the slice is not empty. *)
Lemma paginate_negative_page_witness :
  -2 < 0 /\ page_voices nine_voices (-2) 8 <> [].
Proof.
  split; [lia |].
  destruct (paginate_negative_page py_str nine_voices (-2) ltac:(lia))
    as (_ & _ & _ & _ & _ & Hslice).
  destruct (Hslice ltac:(lia)) as [_ Hiff].
  apply Hiff. simpl. lia.
Defined.

Example paginate_negative_page_run :
  page_voices nine_voices (-2) 8 = [voice_named "a"] /\
  page_voices nine_voices (-1) 8 = [].
Proof. split; reflexivity. Qed.

Example paginate_three_pages :
  map (fun p => page_voices (nine_voices ++ nine_voices) p 8) [0; 1; 2]
  = [ firstn 8 (nine_voices ++ nine_voices);
      [voice_named "i"; voice_named "a"; voice_named "b"; voice_named "c";
       voice_named "d"; voice_named "e"; voice_named "f"; voice_named "g"];
      [voice_named "h"; voice_named "i"] ].
Proof. reflexivity. Qed.

End ConcreteRuns.

(* ===================================================================== *)
(** * Further properties *)
(* ===================================================================== *)

(** ** Pagination: sizes, positions, navigation *)

Section PaginationMore.

Import Main.

Variable py_str : pyval -> string.

Lemma page_voices_length_le (voices : list Voice) (page page_size : Z) :
  0 < page_size ->
  Z.of_nat (length (page_voices voices page page_size)) <= page_size.
Proof.
  intros Hp. unfold page_voices. rewrite py_slice_length.
  unfold adjust_index.
  destruct (Z.ltb_spec (page * page_size) 0);
    destruct (Z.ltb_spec (page * page_size + page_size) 0); lia.
Qed.

Lemma page_voices_nonneg (voices : list Voice) (page page_size : Z) :
  0 < page_size -> 0 <= page ->
  page_voices voices page page_size
  = firstn (Z.to_nat page_size) (skipn (Z.to_nat (page * page_size)) voices).
Proof.
  intros Hp Hpage. unfold page_voices.
  rewrite py_slice_nonneg by nia. f_equal. f_equal. lia.
Qed.

(** X1. For a positive page size the helper returns one row per voice of
    the slice and one navigation row; a slice never has more than
    page_size voices, and a page that is not negative and not the last has
    exactly page_size. *)
Theorem paginate_row_count (voices : list Voice) (page page_size : Z) :
  0 < page_size ->
  exists (buttons : list (list InlineKeyboardButton)) (total : Z),
    _paginate_buttons py_str voices page page_size = Ok (buttons, total) /\
    length buttons = S (length (page_voices voices page page_size)) /\
    Z.of_nat (length (page_voices voices page page_size)) <= page_size /\
    (0 <= page -> page + 1 < total ->
     Z.of_nat (length (page_voices voices page page_size)) = page_size).
Proof.
  intros Hp. rewrite paginate_ok by lia.
  eexists; eexists. split; [reflexivity |].
  split.
  { rewrite length_app, length_map. unfold page_voices. simpl. lia. }
  split; [now apply page_voices_length_le |].
  intros Hpage Hnext.
  rewrite page_voices_nonneg by lia.
  rewrite length_firstn, length_skipn.
  pose proof (total_pages_ceil (Z.of_nat (length voices)) page_size Hp
                ltac:(lia)) as Hc.
  cbv zeta in Hc. unfold total_pages_of in Hnext.
  set (c := (Z.of_nat (length voices) + page_size - 1) / page_size) in *.
  assert ((page + 1) * page_size < Z.of_nat (length voices)) by nia.
  nia.
Qed.

(** X2. With a positive page size, the voice at position i of the list is
    at position i mod page_size of page i / page_size, and that page is
    within 0 .. total_pages-1. *)
Theorem voice_on_its_page (voices : list Voice) (page_size : Z) (i : nat) :
  0 < page_size ->
  (i < length voices)%nat ->
  let page := Z.of_nat i / page_size in
  nth_error (page_voices voices page page_size)
    (Z.to_nat (Z.of_nat i mod page_size))
  = nth_error voices i /\
  0 <= page < total_pages_of (Z.of_nat (length voices)) page_size.
Proof.
  intros Hp Hi page.
  pose proof (Z.div_mod (Z.of_nat i) page_size ltac:(lia)) as Hdm.
  pose proof (Z.mod_pos_bound (Z.of_nat i) page_size Hp) as Hmod.
  fold page in Hdm.
  assert (Hpage : 0 <= page) by (subst page; apply Z.div_pos; lia).
  split.
  - rewrite page_voices_nonneg by lia.
    rewrite nth_error_firstn.
    destruct (Nat.ltb_spec (Z.to_nat (Z.of_nat i mod page_size))
                (Z.to_nat page_size)) as [_ | Hge]; [| lia].
    rewrite nth_error_skipn. f_equal. nia.
  - split; [exact Hpage |].
    pose proof (total_pages_ceil (Z.of_nat (length voices)) page_size Hp
                  ltac:(lia)) as Hc.
    cbv zeta in Hc. unfold total_pages_of.
    set (c := (Z.of_nat (length voices) + page_size - 1) / page_size) in *.
    nia.
Qed.

(** X3. From a page within 0 .. total_pages-1 the navigation row leads
    only to pages within that range: "previous" carries page - 1 and is
    there only when that is not negative, "next" carries page + 1 and is
    there only when that is below total_pages; and no page in the range
    is blank unless the list is empty. *)
Theorem navigation_stays_in_range
  (voices : list Voice) (page page_size : Z) :
  0 < page_size ->
  let total := total_pages_of (Z.of_nat (length voices)) page_size in
  0 <= page < total ->
  (forall b, In b (nav_row page total) ->
             b = refresh_button \/
             (b = prev_button page /\ 0 <= page - 1 < total) \/
             (b = next_button page /\ 0 <= page + 1 < total)) /\
  callback_data (prev_button page)
  = ("page:" ++ str_of_int (page - 1))%string /\
  callback_data (next_button page)
  = ("page:" ++ str_of_int (page + 1))%string /\
  (voices <> [] -> page_voices voices page page_size <> []).
Proof.
  intros Hp total Hrange.
  split.
  { intros b Hb. unfold nav_row in Hb.
    destruct (Z.gtb_spec page 0); destruct (Z.ltb_spec (page + 1) total);
      simpl in Hb;
      repeat (destruct Hb as [Hb | Hb]; [subst b |]);
      try contradiction; auto;
      try (right; left; split; [reflexivity | lia]);
      try (right; right; split; [reflexivity | lia]). }
  split; [reflexivity |]. split; [reflexivity |].
  intros Hne Hnil.
  unfold page_voices in Hnil. apply py_slice_nil_iff in Hnil.
  assert (Hlen : 0 < Z.of_nat (length voices)).
  { destruct voices; [contradiction | simpl; lia]. }
  pose proof (total_pages_ceil (Z.of_nat (length voices)) page_size Hp
                ltac:(lia)) as Hc.
  cbv zeta in Hc. subst total. unfold total_pages_of in Hrange.
  set (c := (Z.of_nat (length voices) + page_size - 1) / page_size) in *.
  assert (Hstart : page * page_size < Z.of_nat (length voices)) by nia.
  rewrite !adjust_index_nonneg in Hnil by nia.
  nia.
Qed.

End PaginationMore.

(** ** voice.py: what a fetch stores, retries, sleeps *)

Section VoiceMore.

Import voice Spec More.

Variable settings : Settings.
Variable net : nat -> Request -> Exchange.

Lemma retryable_is_retry (x : Exchange) :
  retryable x = true -> is_retry (verdict x) = true.
Proof.
  unfold retryable, status_of, verdict.
  destruct (answer x) as [resp |]; simpl; [| reflexivity].
  destruct (Z.eqb_spec (status_code resp) 429); simpl; [reflexivity |].
  intros H5. unfold is_success.
  apply andb_prop in H5 as [Hlo Hhi]. apply Z.leb_le in Hlo.
  destruct (Z.leb_spec 200 (status_code resp));
    destruct (Z.leb_spec (status_code resp) 299); simpl; try lia;
    rewrite (proj2 (Z.leb_le _ _) Hlo), Hhi; reflexivity.
Qed.

Lemma all_retried (req : Request) (len : nat) :
  forall n : nat,
    (forall i, (i < len)%nat ->
               is_retry (verdict (net (n + i) req)) = true) ->
    attempts_of (verdicts net n req len) = len /\
    success_of (verdicts net n req len) = None.
Proof.
  induction len as [| len IH]; intros n Hall; simpl; [auto |].
  pose proof (Hall 0%nat ltac:(lia)) as H0. rewrite Nat.add_0_r in H0.
  destruct (verdict (net n req)); try discriminate.
  destruct (IH (S n)) as [Ha Hs].
  - intros i Hi. specialize (Hall (S i) ltac:(lia)).
    now rewrite <- Nat.add_succ_comm in Hall.
  - now rewrite Ha, Hs.
Qed.

Lemma voices_of_body_nonempty (body : option pyval) (voices : list Voice) :
  voices_of_body settings body = Ok voices -> voices <> [].
Proof.
  unfold voices_of_body, fallback.
  destruct body as [data |]; [| discriminate].
  destruct (items_of data) as [items |]; [| discriminate].
  destruct (py_iter items) as [entries |]; [| discriminate].
  destruct (normalize_each entries) as [[| v vs] |];
    intros [= <-]; discriminate.
Qed.

Lemma voices_of_body_no_entries (body : option pyval) :
  entries_of body = Ok [] ->
  voices_of_body settings body = Ok (fallback settings).
Proof.
  unfold voices_of_body, entries_of.
  destruct body as [data |]; [| discriminate].
  destruct (items_of data) as [items |]; [| discriminate].
  intros ->. reflexivity.
Qed.

(** X4. A 2xx answer whose body is an object with no entry (nothing to
    iterate under [voices] nor under [data]) makes [get_voices] return the
    fallback
    entry and, unlike a failure, store it: until the TTL has run out,
    later calls return it and leave the world as it is. *)
Theorem empty_directory_is_cached (w : World) (resp : Response) :
  cache_get (cache w) (clock w) = None ->
  success_of (verdicts net (served w) (voices_request settings) 4)
  = Some resp ->
  entries_of (json resp) = Ok [] ->
  exists w1 : World,
    get_voices settings net w = (Ok (fallback settings), w1) /\
    value (cache w1) = Some (fallback settings) /\
    ts (cache w1) = clock w1 /\
    forall w2 : World,
      cache w2 = cache w1 ->
      (clock w2 - ts (cache w1) <= ttl (cache w))%Q ->
      get_voices settings net w2 = (Ok (fallback settings), w2).
Proof.
  intros Hmiss Hsucc Hnone.
  destruct (get_voices_miss settings net w Hmiss) as (w1 & _ & _ & Hres).
  cbv zeta in Hres. rewrite Hsucc in Hres.
  rewrite (voices_of_body_no_entries _ Hnone) in Hres.
  destruct Hres as [Hrun Hcache].
  exists w1. split; [exact Hrun |].
  split; [now rewrite Hcache |]. split; [now rewrite Hcache |].
  intros w2 Hsame Hfresh. apply get_voices_hit.
  rewrite Hsame. apply cache_get_some.
  rewrite Hcache in Hfresh |- *. simpl in Hfresh |- *. auto.
Qed.

(** X5. [get_voices] never returns an empty list and never stores one:
    when the cache does not hold an empty list, a list that the call
    returns has an element, and after the call, returned or raised, the
    cache still does not hold an empty list. *)
Theorem get_voices_never_empty (w : World) :
  value (cache w) <> Some [] ->
  value (cache (snd (get_voices settings net w))) <> Some [] /\
  forall (v : list Voice) (w' : World),
    get_voices settings net w = (Ok v, w') -> v <> [].
Proof.
  intros Hinv.
  destruct (cache_get (cache w) (clock w)) as [v0 |] eqn:Hget.
  - rewrite (get_voices_hit settings net w v0 Hget). simpl.
    split; [exact Hinv |].
    intros v w' [= <- <-].
    apply cache_get_some in Hget as [Hv _]. intros ->. contradiction.
  - destruct (get_voices_miss settings net w Hget) as (w1 & _ & _ & Hres).
    cbv zeta in Hres.
    destruct (success_of _) as [resp |];
      [destruct (voices_of_body settings (json resp)) as [voices | e] eqn:Hread
      |];
      destruct Hres as [Hrun Hcache]; rewrite Hrun; simpl; rewrite Hcache.
    + apply voices_of_body_nonempty in Hread.
      split; [simpl; congruence |]. now intros v w' [= <- <-].
    + split; [exact Hinv | discriminate].
    + split; [exact Hinv |]. intros v w' [= <- <-]. discriminate.
Qed.

(** X6. Transport errors and 5xx answers are retried like 429: when the
    first k attempts (k < 4) meet any of the three and the next attempt
    is answered with a 2xx status, the call returns what that response
    gives (what is read from its body, the bytes of its content), after
    k + 1 requests and the sleeps before them. *)
Theorem retried_then_success :
  (forall (w : World) (k : nat) (resp : Response),
      let req := voices_request settings in
      cache_get (cache w) (clock w) = None ->
      (k < 4)%nat ->
      (forall i, (i < k)%nat -> retryable (net (served w + i) req) = true) ->
      answer (net (served w + k) req) = Some resp ->
      is_success (status_code resp) = true ->
      exists w' : World,
        get_voices settings net w
        = (voices_of_body settings (json resp), w') /\
        served w' = (served w + (k + 1))%nat /\
        trace w' = trace w ++ run_events req (k + 1)) /\
  (forall (text voice_id fmt : string) (w : World) (k : nat)
          (resp : Response),
      let req := tts_request settings text voice_id fmt in
      valid_text text ->
      (k < 4)%nat ->
      (forall i, (i < k)%nat -> retryable (net (served w + i) req) = true) ->
      answer (net (served w + k) req) = Some resp ->
      is_success (status_code resp) = true ->
      exists w' : World,
        synthesize_speech settings net text voice_id fmt w
        = (Ok (content resp), w') /\
        served w' = (served w + (k + 1))%nat /\
        trace w' = trace w ++ run_events req (k + 1)).
Proof.
  split.
  - intros w k resp req Hmiss Hk Hretry Hans Hok.
    destruct (success_after_retries net req 4 (served w) k resp Hk)
      as [Hatt Hsucc].
    { intros i Hi. apply retryable_is_retry. auto. }
    { now apply verdict_success. }
    destruct (get_voices_miss settings net w Hmiss)
      as (w' & Hserved & Htrace & Hres).
    cbv zeta in Hserved, Htrace, Hres. fold req in Hserved, Htrace, Hres.
    rewrite Hsucc in Hres. rewrite Hatt in Hserved, Htrace.
    exists w'. replace (k + 1)%nat with (S k) by lia.
    destruct (voices_of_body settings (json resp));
      destruct Hres as [Hrun _]; auto.
  - intros text voice_id fmt w k resp req Hvalid Hk Hretry Hans Hok.
    destruct (success_after_retries net req 4 (served w) k resp Hk)
      as [Hatt Hsucc].
    { intros i Hi. apply retryable_is_retry. auto. }
    { now apply verdict_success. }
    destruct (synthesize_speech_run settings net text voice_id fmt w Hvalid)
      as (w' & Hserved & Htrace & _ & Hrun).
    cbv zeta in Hserved, Htrace, Hrun. fold req in Hserved, Htrace, Hrun.
    rewrite Hsucc in Hrun. rewrite Hatt in Hserved, Htrace.
    exists w'. replace (k + 1)%nat with (S k) by lia. auto.
Qed.

(** X7. When all four attempts meet a transport error, 429 or 5xx, the
    call gives up after exactly four requests, having slept 0.5, 1 and 2
    seconds between them: [get_voices] returns the fallback entry with the
    cache as it was, [synthesize_speech] raises [VoiceServiceError]. *)
Theorem retries_exhausted :
  (forall w : World,
      let req := voices_request settings in
      cache_get (cache w) (clock w) = None ->
      (forall i, (i < 4)%nat -> retryable (net (served w + i) req) = true) ->
      exists w' : World,
        get_voices settings net w = (Ok (fallback settings), w') /\
        cache w' = cache w /\
        served w' = (served w + 4)%nat /\
        trace w'
        = trace w ++ [Sent req; Slept (1 # 2); Sent req; Slept 1; Sent req;
                      Slept 2; Sent req]) /\
  (forall (text voice_id fmt : string) (w : World),
      let req := tts_request settings text voice_id fmt in
      valid_text text ->
      (forall i, (i < 4)%nat -> retryable (net (served w + i) req) = true) ->
      exists w' : World,
        synthesize_speech settings net text voice_id fmt w
        = (Raise (VoiceServiceError generic_message), w') /\
        served w' = (served w + 4)%nat /\
        trace w'
        = trace w ++ [Sent req; Slept (1 # 2); Sent req; Slept 1; Sent req;
                      Slept 2; Sent req]).
Proof.
  split.
  - intros w req Hmiss Hall.
    destruct (all_retried req 4 (served w)) as [Hatt Hsucc].
    { intros i Hi. apply retryable_is_retry. auto. }
    destruct (get_voices_miss settings net w Hmiss)
      as (w' & Hserved & Htrace & Hres).
    cbv zeta in Hserved, Htrace, Hres. fold req in Hserved, Htrace, Hres.
    rewrite Hsucc in Hres. rewrite Hatt in Hserved, Htrace.
    destruct Hres as [Hrun Hcache]. exists w'. auto.
  - intros text voice_id fmt w req Hvalid Hall.
    destruct (all_retried req 4 (served w)) as [Hatt Hsucc].
    { intros i Hi. apply retryable_is_retry. auto. }
    destruct (synthesize_speech_run settings net text voice_id fmt w Hvalid)
      as (w' & Hserved & Htrace & _ & Hrun).
    cbv zeta in Hserved, Htrace, Hrun. fold req in Hserved, Htrace, Hrun.
    rewrite Hsucc in Hrun. rewrite Hatt in Hserved, Htrace.
    exists w'. auto.
Qed.

Lemma slept_total_run (req : Request) (n : nat) :
  (n <= 4)%nat ->
  (slept_total (run_events req n) <= 7 # 2)%Q /\
  (slept_total (run_events req n) == 7 # 2 <-> n = 4%nat)%Q.
Proof.
  intros Hn.
  destruct n as [| [| [| [| [| n]]]]]; try lia;
    (split; [vm_compute; discriminate |]);
    (split; [intros H; vm_compute in H; try discriminate H; try reflexivity
            | intros H; try discriminate H; reflexivity]).
Qed.

(** X8. No call sleeps more than 3.5 seconds in all, and only a call that
    makes all four attempts sleeps that long; [synthesize_speech] never
    changes the voice cache. *)
Theorem sleep_budget :
  (forall w : World,
      exists events : list Event,
        trace (snd (get_voices settings net w)) = trace w ++ events /\
        (slept_total events <= 7 # 2)%Q /\
        ((slept_total events == 7 # 2)%Q ->
         served (snd (get_voices settings net w)) = (served w + 4)%nat)) /\
  (forall (text voice_id fmt : string) (w : World),
      exists events : list Event,
        trace (snd (synthesize_speech settings net text voice_id fmt w))
        = trace w ++ events /\
        (slept_total events <= 7 # 2)%Q /\
        ((slept_total events == 7 # 2)%Q ->
         served (snd (synthesize_speech settings net text voice_id fmt w))
         = (served w + 4)%nat) /\
        cache (snd (synthesize_speech settings net text voice_id fmt w))
        = cache w).
Proof.
  split.
  - intros w.
    destruct (get_voices_footprint settings net w)
      as (r & w' & n & Hrun & Hn & Hserved & Htrace & _).
    rewrite Hrun. simpl. eexists. split; [exact Htrace |].
    destruct (slept_total_run (voices_request settings) n Hn) as [Hle Hiff].
    split; [exact Hle |]. intros Heq. apply Hiff in Heq. now subst n.
  - intros text voice_id fmt w.
    destruct (valid_text_dec text) as [Hvalid | Hbad].
    + destruct (synthesize_speech_run settings net text voice_id fmt w Hvalid)
        as (w' & Hserved & Htrace & Hcache & Hrun).
      cbv zeta in Hserved, Htrace, Hrun.
      set (req := tts_request settings text voice_id fmt) in *.
      set (vs := verdicts net (served w) req 4) in *.
      assert (Hn : (attempts_of vs <= 4)%nat).
      { pose proof (attempts_of_le vs) as H. subst vs.
        now rewrite verdicts_length in H. }
      rewrite Hrun. cbn [fst snd]. eexists. split; [exact Htrace |].
      destruct (slept_total_run req (attempts_of vs) Hn) as [Hle Hiff].
      split; [exact Hle |]. split; [| exact Hcache].
      intros Heq. apply Hiff in Heq. now rewrite Hserved, Heq.
    + destruct (synthesize_speech_invalid settings net text voice_id fmt w
                  Hbad) as [msg Hrun].
      rewrite Hrun. simpl. exists []. rewrite app_nil_r.
      split; [reflexivity |]. split; [vm_compute; discriminate |].
      split; [| reflexivity]. intros H. vm_compute in H. discriminate H.
Qed.

End VoiceMore.

(** ** voice.py: the log *)

Section LogFacts.

Import voice Spec More.

Variable settings : Settings.
Variable net : nat -> Request -> Exchange.







End LogFacts.

(** ** main.py: the per-user state *)

Section StateFacts.

Import Handlers More.

Lemma state_get_set_same (st : UserState) (u : Z) (v : string) :
  state_get (state_set st u v) u = Some v.
Proof.
  induction st as [| [k v'] st IH]; simpl.
  - now rewrite Z.eqb_refl.
  - destruct (Z.eqb_spec u k) as [-> | Hne]; simpl.
    + now rewrite Z.eqb_refl.
    + destruct (Z.eqb_spec u k); [contradiction | exact IH].
Qed.

Lemma state_get_set_other (st : UserState) (u u' : Z) (v : string) :
  u' <> u -> state_get (state_set st u v) u' = state_get st u'.
Proof.
  intros Hne. induction st as [| [k v'] st IH]; simpl.
  - destruct (Z.eqb_spec u' u); [contradiction | reflexivity].
  - destruct (Z.eqb_spec u k) as [-> | Hk]; simpl.
    + destruct (Z.eqb_spec u' k); [contradiction | reflexivity].
    + destruct (Z.eqb_spec u' k); [reflexivity | exact IH].
Qed.

Lemma state_get_none_iff (st : UserState) (u : Z) :
  state_get st u = None <-> ~ In u (state_keys st).
Proof.
  induction st as [| [k v] st IH]; simpl.
  - tauto.
  - destruct (Z.eqb_spec u k) as [-> | Hne].
    + split; [discriminate | intros H; exfalso; apply H; now left].
    + rewrite IH. split.
      * intros H [Hk | Hin]; [congruence | contradiction].
      * intros H Hin. apply H. now right.
Qed.

Lemma state_keys_set (st : UserState) (u : Z) (v : string) :
  state_keys (state_set st u v)
  = match state_get st u with
    | Some _ => state_keys st
    | None => state_keys st ++ [u]
    end.
Proof.
  induction st as [| [k v'] st IH]; simpl.
  - reflexivity.
  - destruct (Z.eqb_spec u k) as [-> | Hne]; simpl; [reflexivity |].
    rewrite IH. destruct (state_get st u); reflexivity.
Qed.

(** X10. The per-user state after a store: the user reads back the
    stored voice, every other user reads what they read before, and the
    state keeps one entry per user, so that a user who picks again takes
    no more room. *)
Theorem user_state_store (st : UserState) (u : Z) (v : string) :
  NoDup (state_keys st) ->
  state_get (state_set st u v) u = Some v /\
  (forall u', u' <> u ->
              state_get (state_set st u v) u' = state_get st u') /\
  NoDup (state_keys (state_set st u v)) /\
  length (state_set st u v)
  = match state_get st u with
    | Some _ => length st
    | None => S (length st)
    end /\
  state_set (state_set st u v) u v = state_set st u v.
Proof.
  intros Hnd.
  split; [apply state_get_set_same |].
  split; [intros u' Hne; now apply state_get_set_other |].
  split.
  { rewrite state_keys_set.
    destruct (state_get st u) eqn:Hget; [exact Hnd |].
    apply state_get_none_iff in Hget.
    apply NoDup_app; [exact Hnd | repeat constructor; simpl; tauto |].
    intros x Hx [<- | []]. contradiction. }
  split.
  { clear Hnd. induction st as [| [k v'] st IH]; simpl; [reflexivity |].
    destruct (Z.eqb_spec u k); simpl; [reflexivity |].
    rewrite IH. destruct (state_get st u); reflexivity. }
  clear Hnd. induction st as [| [k v'] st IH]; simpl.
  - now rewrite Z.eqb_refl.
  - destruct (Z.eqb_spec u k) as [-> | Hne]; simpl.
    + now rewrite Z.eqb_refl.
    + destruct (Z.eqb_spec u k); [contradiction | now rewrite IH].
Qed.

(** The voice of a request (line 104): the one the user stored, unless
    that is the empty string; then, and for a user who never stored one,
    the default voice. *)
Lemma resolve_after_store (st : UserState) (u : Z) (v default : string) :
  resolve_voice_id (state_set st u v) u default
  = (if String.eqb v "" then default else v) /\
  (forall u', u' <> u ->
              resolve_voice_id (state_set st u v) u' default
              = resolve_voice_id st u' default) /\
  (forall u', ~ In u' (state_keys st) ->
              resolve_voice_id st u' default = default).
Proof.
  unfold resolve_voice_id.
  split; [now rewrite state_get_set_same |].
  split.
  - intros u' Hne. now rewrite state_get_set_other.
  - intros u' Hnot. apply state_get_none_iff in Hnot. now rewrite Hnot.
Qed.

End StateFacts.

(** ** main.py: the handlers *)

Section HandlerFacts.

Import Main voice Spec Handlers More.

Variable cfg : BotSettings.
Variable net : nat -> Request -> Exchange.
Variable tg : nat -> Outgoing -> bool.
Variable py_str : pyval -> string.
Variable py_int : string -> option Z.

Lemma tg_call_run (o : Outgoing) (b : Bot) :
  tg_call tg o b = (call_result tg o b, after_call tg o b).
Proof.
  unfold tg_call, call_result, after_call.
  destruct (tg (calls b) o); reflexivity.
Qed.

Lemma tg_call_ok (o : Outgoing) (b : Bot) :
  tg (calls b) o = true -> tg_call tg o b = (Done tt, after_call tg o b).
Proof.
  intros H. rewrite tg_call_run. unfold call_result. now rewrite H.
Qed.

Lemma paginate_run (voices : list Voice) (page : Z) (b : Bot) :
  paginate py_str voices page b
  = (Done (keyboard py_str voices page,
           total_pages_of (Z.of_nat (length voices)) 8), b).
Proof.
  unfold paginate, default_page_size, keyboard.
  rewrite paginate_ok by lia. reflexivity.
Qed.

(** A call of [voice.py] from a handler: its value or its exception, and
    its world. *)
Lemma lift_run {A : Type} (m : M A) (b : Bot) :
  lift m b
  = (match fst (m (world b)) with
     | Ok a => Done a
     | Raise e => Failed (VoiceExn e)
     end, with_world b (snd (m (world b)))).
Proof.
  unfold lift, with_world.
  destruct (m (world b)) as [[a | e] w']; reflexivity.
Qed.

Lemma prefix_page (s : string) :
  String.prefix "page:" ("page:" ++ s) = true.
Proof. simpl. destruct s; reflexivity. Qed.

Lemma prefix_pick (s : string) :
  String.prefix "pick:" ("pick:" ++ s) = true.
Proof. simpl. destruct s; reflexivity. Qed.

(** The callback of a page, once the query is answered. *)
Lemma on_callback_page_run (q : CallbackQuery) (b : Bot) (s : string) :
  data q = Some ("page:" ++ s)%string ->
  tg (calls b) Answer = true ->
  match py_int s with
  | None =>
      on_callback cfg net tg py_str py_int q b
      = (Failed ValueError, after_call tg Answer b)
  | Some page =>
      match get_voices (base cfg) net (world b) with
      | (Ok v, w') =>
          let b1 := with_world (after_call tg Answer b) w' in
          let o := EditMarkup (keyboard py_str v page) in
          on_callback cfg net tg py_str py_int q b
          = (call_result tg o b1, after_call tg o b1)
      | (Raise e, w') =>
          on_callback cfg net tg py_str py_int q b
          = (Failed (VoiceExn e), with_world (after_call tg Answer b) w')
      end
  end.
Proof.
  intros Hdata Hans.
  unfold on_callback, bindH. rewrite (tg_call_ok _ _ Hans), Hdata.
  rewrite prefix_page.
  change (split1 ("page:" ++ s)%string) with (@retH string s).
  unfold retH, failH. cbv beta iota.
  destruct (py_int s) as [page |]; [| reflexivity].
  rewrite lift_run. change (world (after_call tg Answer b)) with (world b).
  destruct (get_voices (base cfg) net (world b)) as [[v | e] w'];
    cbn [fst snd]; [| reflexivity].
  rewrite paginate_run. simpl fst. apply tg_call_run.
Qed.

(** The callback of a pick, once the query is answered. *)
Lemma on_callback_pick_run (q : CallbackQuery) (b : Bot) (v : string) :
  data q = Some ("pick:" ++ v)%string ->
  tg (calls b) Answer = true ->
  let b1 :=
    {| world := world b;
       users := state_set (users b) (from_user q) v;
       outbox := outbox b ++ [Answer];
       calls := S (calls b) |} in
  on_callback cfg net tg py_str py_int q b
  = (call_result tg (EditText picked_text) b1,
     after_call tg (EditText picked_text) b1).
Proof.
  intros Hdata Hans b1.
  unfold on_callback, bindH. rewrite (tg_call_ok _ _ Hans), Hdata.
  change (String.prefix "page:" ("pick:" ++ v)) with false. cbv iota.
  change (String.eqb ("pick:" ++ v) "refresh") with false. cbv iota.
  rewrite prefix_pick.
  change (split1 ("pick:" ++ v)%string) with (@retH string v).
  unfold retH. cbv beta iota. rewrite tg_call_run.
  subst b1. unfold after_call at 3 4. simpl. rewrite Hans. reflexivity.
Qed.

Lemma on_callback_refresh_run (q : CallbackQuery) (b : Bot) :
  data q = Some "refresh" ->
  tg (calls b) Answer = true ->
  match get_voices (base cfg) net (world b) with
  | (Ok v, w') =>
      let b1 := with_world (after_call tg Answer b) w' in
      on_callback cfg net tg py_str py_int q b
      = (Done tt, after_call tg (EditMarkup (keyboard py_str v 0)) b1)
  | (Raise e, w') =>
      on_callback cfg net tg py_str py_int q b
      = (Failed (VoiceExn e), with_world (after_call tg Answer b) w')
  end.
Proof.
  intros Hdata Hans.
  unfold on_callback, bindH. rewrite (tg_call_ok _ _ Hans), Hdata.
  change (String.prefix "page:" "refresh") with false.
  change (String.eqb "refresh" "refresh") with true. cbv beta iota.
  rewrite lift_run. change (world (after_call tg Answer b)) with (world b).
  destruct (get_voices (base cfg) net (world b)) as [[v | e] w'];
    cbn [fst snd]; [| reflexivity].
  rewrite paginate_run. simpl fst.
  unfold try_catch_all. rewrite tg_call_run. unfold call_result, retH.
  destruct (tg (calls (with_world (after_call tg Answer b) w'))
              (EditMarkup (keyboard py_str v 0))); reflexivity.
Qed.

Lemma on_callback_refused (q : CallbackQuery) (b : Bot) :
  tg (calls b) Answer = false ->
  on_callback cfg net tg py_str py_int q b
  = (Failed TelegramError, after_call tg Answer b).
Proof.
  intros Hans. unfold on_callback, bindH.
  rewrite tg_call_run. unfold call_result. now rewrite Hans.
Qed.

(** [deliver] calls the transport and nothing else. *)
Lemma deliver_keeps_world (audio : list Byte.byte) (voice_id text : string)
  (b : Bot) :
  world (snd (deliver cfg tg audio voice_id text b)) = world b /\
  users (snd (deliver cfg tg audio voice_id text b)) = users b.
Proof.
  unfold deliver, try_catch_all, bindH, tg_call.
  destruct (String.eqb (send_as cfg) "voice");
    repeat match goal with
           | |- context [tg ?n ?o] => destruct (tg n o); simpl
           end; auto.
Qed.

(** [on_text] on a text that passes the checks: the call of
    [synthesize_speech], then the delivery or the fixed reply. *)
Lemma on_text_valid (update : Update) (text : string) (b : Bot) :
  message update = Some text ->
  valid_text text ->
  let user_id := match effective_user update with
                 | Some u => u
                 | None => 0
                 end in
  let voice_id :=
    resolve_voice_id (users b) user_id (default_voice_id (base cfg)) in
  let req := tts_request (base cfg) text voice_id (audio_format cfg) in
  let vs := verdicts net (served (world b)) req 4 in
  exists w' : World,
    served w' = (served (world b) + attempts_of vs)%nat /\
    trace w' = trace (world b) ++ run_events req (attempts_of vs) /\
    cache w' = cache (world b) /\
    on_text cfg net tg update b
    = match success_of vs with
      | Some resp =>
          bindH (deliver cfg tg (content resp) voice_id text)
            (fun _ => asyncio_sleep (1 # 20)) (with_world b w')
      | None =>
          tg_call tg (ReplyText overloaded_text None) (with_world b w')
      end.
Proof.
  intros Hmsg Hvalid user_id voice_id req vs.
  destruct (synthesize_speech_run (base cfg) net text voice_id
              (audio_format cfg) (world b) Hvalid)
    as (w' & Hserved & Htrace & Hcache & Hrun).
  cbv zeta in Hserved, Htrace, Hrun.
  fold req in Hserved, Htrace, Hrun. fold vs in Hserved, Htrace, Hrun.
  exists w'. split; [exact Hserved |]. split; [exact Htrace |].
  split; [exact Hcache |].
  unfold on_text, lift. rewrite Hmsg.
  fold user_id. fold voice_id. rewrite Hrun.
  clearbody vs. destruct (success_of vs); reflexivity.
Qed.

(** [on_text] on a text that fails the checks. *)
Lemma on_text_invalid (update : Update) (text : string) (b : Bot) :
  message update = Some text ->
  ~ valid_text text ->
  let msg := if String.eqb text "" then "Пустой текст"
             else "Слишком длинный текст (>5000)" in
  on_text cfg net tg update b
  = (call_result tg (ReplyText msg None) b,
     after_call tg (ReplyText msg None) b).
Proof.
  intros Hmsg Hbad msg.
  unfold on_text, lift, synthesize_speech. rewrite Hmsg. subst msg.
  destruct (String.eqb_spec text "") as [-> | Hne].
  - simpl. rewrite tg_call_run. reflexivity.
  - destruct (Z.gtb_spec (Z.of_nat (String.length text)) 5000) as [Hlong | Hok].
    + simpl. rewrite tg_call_run. reflexivity.
    + exfalso. apply Hbad. split; [exact Hne | lia].
Qed.

(** The requests of [on_text] on a text that passes the checks: those of
    one call of [synthesize_speech] for the voice of the user. *)
Lemma on_text_requests (update : Update) (text : string) (b : Bot) :
  message update = Some text ->
  valid_text text ->
  let user_id := match effective_user update with
                 | Some u => u
                 | None => 0
                 end in
  let voice_id :=
    resolve_voice_id (users b) user_id (default_voice_id (base cfg)) in
  let req := tts_request (base cfg) text voice_id (audio_format cfg) in
  exists n : nat,
    (1 <= n <= 4)%nat /\
    trace (world (snd (on_text cfg net tg update b)))
    = trace (world b) ++ run_events req n /\
    users (snd (on_text cfg net tg update b)) = users b.
Proof.
  intros Hmsg Hvalid user_id voice_id req.
  destruct (on_text_valid update text b Hmsg Hvalid)
    as (w' & _ & Htrace & _ & Hrun).
  cbv zeta in Htrace, Hrun. fold user_id voice_id in Htrace, Hrun.
  fold req in Htrace, Hrun.
  set (vs := verdicts net (served (world b)) req 4) in *.
  exists (attempts_of vs). split.
  { split.
    - apply attempts_of_pos. subst vs. simpl. discriminate.
    - pose proof (attempts_of_le vs) as H. subst vs.
      now rewrite verdicts_length in H. }
  rewrite Hrun. clearbody vs. destruct (success_of vs) as [resp |].
  - unfold bindH.
    destruct (deliver_keeps_world (content resp) voice_id text
                (with_world b w')) as [Hw Hu].
    destruct (deliver cfg tg (content resp) voice_id text (with_world b w'))
      as [[[] | e] b2]; simpl in Hw, Hu |- *; rewrite Hw, Hu; auto.
  - rewrite tg_call_run. simpl. auto.
Qed.

(** Both messages taken: the audio, then the file. *)
Lemma deliver_ok (audio : list Byte.byte) (voice_id text : string)
  (b : Bot) :
  tg (calls b) (first_message cfg audio) = true ->
  tg (S (calls b)) (tts_document audio voice_id text) = true ->
  deliver cfg tg audio voice_id text b
  = (Done tt,
     {| world := world b; users := users b;
        outbox := outbox b
                  ++ [first_message cfg audio;
                      tts_document audio voice_id text];
        calls := S (S (calls b)) |}).
Proof.
  intros Hfirst Hfile.
  unfold deliver, try_catch_all, bindH.
  replace (if String.eqb (send_as cfg) "voice"
           then tg_call tg (ReplyVoice audio)
           else tg_call tg (ReplyAudio audio "TTS" "tts.mp3"))
    with (tg_call tg (first_message cfg audio))
    by (unfold first_message; destruct (String.eqb (send_as cfg) "voice");
        reflexivity).
  rewrite (tg_call_ok _ _ Hfirst).
  rewrite tg_call_ok by exact Hfile.
  unfold after_call. cbn [calls outbox world users].
  rewrite Hfirst, Hfile, <- app_assoc. reflexivity.
Qed.

Lemma get_voices_result_nonempty (w : World) :
  value (cache w) <> Some [] ->
  forall (v : list Voice) (w' : World),
    get_voices (base cfg) net w = (Ok v, w') -> v <> [].
Proof.
  intros Hinv v w' Hrun.
  destruct (cache_get (cache w) (clock w)) as [v0 |] eqn:Hget.
  - rewrite (get_voices_hit (base cfg) net w v0 Hget) in Hrun.
    injection Hrun as <- _.
    apply cache_get_some in Hget as [Hv _]. intros ->. contradiction.
  - destruct (get_voices_miss (base cfg) net w Hget) as (w1 & _ & _ & Hres).
    cbv zeta in Hres.
    destruct (success_of _) as [resp |];
      [destruct (voices_of_body (base cfg) (json resp)) as [voices | e]
         eqn:Hread |];
      destruct Hres as [Hrun' _]; rewrite Hrun' in Hrun.
    + injection Hrun as <- _.
      now apply voices_of_body_nonempty in Hread.
    + discriminate.
    + injection Hrun as <- _. discriminate.
Qed.

End HandlerFacts.

Section HandlerClaims.

Import Main voice Spec Handlers More.

Variable cfg : BotSettings.
Variable net : nat -> Request -> Exchange.
Variable tg : nat -> Outgoing -> bool.
Variable py_str : pyval -> string.
Variable py_int : string -> option Z.

(** X11. A button press with the payload [pick:<v>], once the query is
    answered, stores v for the user who pressed, before the confirmation
    is sent and whether or not it goes through; it asks the provider
    nothing.  The outcome is that of the confirmation. *)
Theorem callback_pick_stores_voice
  (q : CallbackQuery) (b : Bot) (v : string) :
  data q = Some ("pick:" ++ v)%string ->
  tg (calls b) Answer = true ->
  let r := on_callback cfg net tg py_str py_int q b in
  let confirmed := tg (S (calls b)) (EditText picked_text) in
  users (snd r) = state_set (users b) (from_user q) v /\
  world (snd r) = world b /\
  fst r = (if confirmed then Done tt else Failed TelegramError) /\
  outbox (snd r)
  = outbox b ++ Answer :: (if confirmed then [EditText picked_text] else []).
Proof.
  intros Hdata Hans r confirmed. subst r.
  rewrite (on_callback_pick_run cfg net tg py_str py_int q b v Hdata Hans).
  unfold call_result, after_call. simpl. fold confirmed.
  repeat split; auto.
  destruct confirmed; [rewrite <- app_assoc |]; reflexivity.
Qed.

(** X12. The button of a voice in the keyboard carries [pick:] followed by
    the string of the voice's id, and pressing it stores that string for
    the user, colons in it included. *)
Theorem pick_button_selects_its_voice
  (voice : Voice) (button : InlineKeyboardButton)
  (q : CallbackQuery) (b : Bot) :
  In button (pick_row py_str voice) ->
  data q = Some (callback_data button) ->
  tg (calls b) Answer = true ->
  text button = py_or (name voice) (id voice) /\
  state_get (users (snd (on_callback cfg net tg py_str py_int q b)))
    (from_user q)
  = Some (py_str (id voice)).
Proof.
  intros [<- | []] Hdata Hans. simpl in Hdata |- *.
  split; [reflexivity |].
  rewrite (on_callback_pick_run cfg net tg py_str py_int q b _ Hdata Hans).
  simpl. apply state_get_set_same.
Qed.

(** X13. After a press of [pick:<v>] by a user, a text of that user that
    passes the checks is sent to the provider for the voice v, or for the
    default voice when v is empty; the text of a user with no entry goes
    to the default voice. *)
Theorem picked_voice_is_used
  (q : CallbackQuery) (b : Bot) (v text : string) (update : Update) :
  data q = Some ("pick:" ++ v)%string ->
  tg (calls b) Answer = true ->
  message update = Some text ->
  valid_text text ->
  let b1 := snd (on_callback cfg net tg py_str py_int q b) in
  let default := default_voice_id (base cfg) in
  let request_for (voice_id : string) :=
    Sent (tts_request (base cfg) text voice_id (audio_format cfg)) in
  (effective_user update = Some (from_user q) ->
   exists rest,
     trace (world (snd (on_text cfg net tg update b1)))
     = trace (world b)
       ++ request_for (if String.eqb v "" then default else v) :: rest) /\
  (forall u, effective_user update = Some u ->
             u <> from_user q -> ~ In u (state_keys (users b)) ->
             exists rest,
               trace (world (snd (on_text cfg net tg update b1)))
               = trace (world b) ++ request_for default :: rest).
Proof.
  intros Hdata Hans Hmsg Hvalid b1 default request_for.
  assert (Hb1 : users b1 = state_set (users b) (from_user q) v
                /\ world b1 = world b).
  { subst b1.
    rewrite (on_callback_pick_run cfg net tg py_str py_int q b v Hdata Hans).
    split; reflexivity. }
  destruct Hb1 as [Husers Hworld].
  destruct (on_text_requests cfg net tg update text b1 Hmsg Hvalid)
    as (n & [Hn _] & Htrace & _).
  cbv zeta in Htrace. rewrite Hworld, Husers in Htrace.
  split.
  - intros Huser. rewrite Huser in Htrace.
    destruct (resolve_after_store (users b) (from_user q) v default)
      as (Hsame & _ & _).
    fold default in Htrace. rewrite Hsame in Htrace.
    destruct (run_events_first
                (tts_request (base cfg) text
                   (if String.eqb v "" then default else v)
                   (audio_format cfg)) n Hn) as [rest Hr].
    exists rest. rewrite Htrace, Hr. reflexivity.
  - intros u Huser Hne Hnew. rewrite Huser in Htrace.
    destruct (resolve_after_store (users b) (from_user q) v default)
      as (_ & Hother & Hnone).
    fold default in Htrace.
    rewrite (Hother u Hne), (Hnone u Hnew) in Htrace.
    destruct (run_events_first
                (tts_request (base cfg) text default (audio_format cfg))
                n Hn) as [rest Hr].
    exists rest. rewrite Htrace, Hr. reflexivity.
Qed.

(** X14. A button press with the payload [page:<s>], once the query is
    answered: when [int(s)] fails, the exception leaves the handler and
    nothing else is done, the provider is not asked; when it gives a page,
    [get_voices] is called: the keyboard of that page, built from the list
    it returns, replaces the old one, the outcome being that of this edit;
    an exception it raises leaves the handler and nothing is edited. *)
Theorem callback_page_shows_page
  (q : CallbackQuery) (b : Bot) (s : string) :
  data q = Some ("page:" ++ s)%string ->
  tg (calls b) Answer = true ->
  let r := on_callback cfg net tg py_str py_int q b in
  (py_int s = None ->
   fst r = Failed ValueError /\
   world (snd r) = world b /\
   users (snd r) = users b /\
   outbox (snd r) = outbox b ++ [Answer]) /\
  (forall page, py_int s = Some page ->
     world (snd r) = snd (get_voices (base cfg) net (world b)) /\
     users (snd r) = users b /\
     match fst (get_voices (base cfg) net (world b)) with
     | Ok v =>
         let edit := EditMarkup (keyboard py_str v page) in
         let edited := tg (S (calls b)) edit in
         fst r = (if edited then Done tt else Failed TelegramError) /\
         outbox (snd r)
         = outbox b ++ Answer :: (if edited then [edit] else [])
     | Raise e =>
         fst r = Failed (VoiceExn e) /\
         outbox (snd r) = outbox b ++ [Answer] /\
         calls (snd r) = S (calls b)
     end).
Proof.
  intros Hdata Hans r. subst r.
  pose proof (on_callback_page_run cfg net tg py_str py_int q b s Hdata Hans)
    as Hrun.
  split.
  - intros Hnone. rewrite Hnone in Hrun. rewrite Hrun.
    unfold after_call. simpl. rewrite Hans. auto.
  - intros page Hsome. rewrite Hsome in Hrun.
    destruct (get_voices (base cfg) net (world b)) as [[v | e] w'];
      cbv zeta in Hrun; rewrite Hrun;
      unfold call_result, after_call, with_world; simpl; rewrite Hans.
    + repeat split; auto.
      destruct (tg (S (calls b)) (EditMarkup (keyboard py_str v page)));
        [rewrite <- app_assoc |]; reflexivity.
    + repeat split; auto.
Qed.

(** X15. When [int()] reads back what [str()] writes for an integer,
    pressing the "next" button of page p shows the keyboard of page p + 1
    and pressing its "previous" button that of page p - 1, each built from
    the list that [get_voices] returns; when [get_voices] raises, nothing
    is shown. *)
Theorem navigation_buttons_turn_pages
  (q : CallbackQuery) (b : Bot) (p : Z) :
  (forall n : Z, py_int (str_of_int n) = Some n) ->
  tg (calls b) Answer = true ->
  let r := on_callback cfg net tg py_str py_int q b in
  let shows (page : Z) :=
    match get_voices (base cfg) net (world b) with
    | (Ok v, w') =>
        snd r
        = after_call tg (EditMarkup (keyboard py_str v page))
            (with_world (after_call tg Answer b) w')
    | (Raise e, w') =>
        r = (Failed (VoiceExn e), with_world (after_call tg Answer b) w')
    end in
  (data q = Some (callback_data (next_button p)) -> shows (p + 1)) /\
  (data q = Some (callback_data (prev_button p)) -> shows (p - 1)).
Proof.
  intros Hint Hans r shows. subst r shows. cbv beta.
  split; intros Hdata; simpl in Hdata;
    pose proof (on_callback_page_run cfg net tg py_str py_int q b _
                  Hdata Hans) as Hrun;
    rewrite Hint in Hrun;
    destruct (get_voices (base cfg) net (world b)) as [[v | e] w'];
    cbv zeta in Hrun; now rewrite Hrun.
Qed.

(** X16. A press of [refresh], once the query is answered, calls
    [get_voices] and sends the keyboard of page 0 built from the list it
    returns; the handler then ends normally whether or not the transport
    takes the edit.  An exception that [get_voices] raises leaves the
    handler, and nothing is edited. *)
Theorem callback_refresh_swallows_edit_failure
  (q : CallbackQuery) (b : Bot) :
  data q = Some "refresh" ->
  tg (calls b) Answer = true ->
  let r := on_callback cfg net tg py_str py_int q b in
  world (snd r) = snd (get_voices (base cfg) net (world b)) /\
  users (snd r) = users b /\
  match fst (get_voices (base cfg) net (world b)) with
  | Ok v =>
      let edit := EditMarkup (keyboard py_str v 0) in
      fst r = Done tt /\
      outbox (snd r)
      = outbox b ++ Answer :: (if tg (S (calls b)) edit then [edit] else [])
  | Raise e =>
      fst r = Failed (VoiceExn e) /\
      outbox (snd r) = outbox b ++ [Answer] /\
      calls (snd r) = S (calls b)
  end.
Proof.
  intros Hdata Hans r. subst r.
  pose proof (on_callback_refresh_run cfg net tg py_str py_int q b Hdata Hans)
    as Hrun.
  destruct (get_voices (base cfg) net (world b)) as [[v | e] w'];
    cbv zeta in Hrun; rewrite Hrun;
    unfold after_call, with_world; simpl; rewrite Hans.
  - repeat split; auto.
    destruct (tg (S (calls b)) (EditMarkup (keyboard py_str v 0)));
      [rewrite <- app_assoc |]; reflexivity.
  - repeat split; auto.
Qed.

(** X17. When the transport refuses to answer the query, the handler
    stops there with that error, whatever the payload: nothing is stored,
    the provider is not asked, nothing is sent.  A payload that is not
    [page:..], [refresh] or [pick:..] is answered and otherwise ignored. *)
Theorem callback_edges (q : CallbackQuery) (b : Bot) :
  let r := on_callback cfg net tg py_str py_int q b in
  let payload := match data q with Some d => d | None => "" end in
  (tg (calls b) Answer = false ->
   fst r = Failed TelegramError /\
   users (snd r) = users b /\ world (snd r) = world b /\
   outbox (snd r) = outbox b) /\
  (tg (calls b) Answer = true ->
   String.prefix "page:" payload = false ->
   payload <> "refresh" ->
   String.prefix "pick:" payload = false ->
   fst r = Done tt /\
   users (snd r) = users b /\ world (snd r) = world b /\
   outbox (snd r) = outbox b ++ [Answer]).
Proof.
  intros r payload. subst r. split.
  - intros Hans. rewrite (on_callback_refused cfg net tg py_str py_int q b Hans).
    unfold after_call. simpl. rewrite Hans. auto.
  - intros Hans Hpage Hrefresh Hpick.
    unfold on_callback, bindH. rewrite (tg_call_ok tg _ _ Hans).
    fold payload. rewrite Hpage, Hpick.
    destruct (String.eqb_spec payload "refresh"); [contradiction |].
    unfold after_call. simpl. rewrite Hans. auto.
Qed.

End HandlerClaims.

Section TextClaims.

Import Main voice Spec Handlers More.

Variable cfg : BotSettings.
Variable net : nat -> Request -> Exchange.
Variable tg : nat -> Outgoing -> bool.
Variable py_str : pyval -> string.

Ltac split_transport :=
  repeat match goal with
         | |- context [tg ?n ?o] => destruct (tg n o) eqn:?; simpl
         | H : context [tg ?n ?o] |- _ => destruct (tg n o) eqn:?; simpl in H
         end.

(** X18. A text that fails the checks of [synthesize_speech] is answered
    with the message of the exception, "Пустой текст" or "Слишком длинный
    текст (>5000)", in one call of the transport, and the provider is not
    asked; an update without message is dropped without any call. *)
Theorem text_invalid_reply (update : Update) (b : Bot) :
  let r := on_text cfg net tg update b in
  (message update = None ->
   fst r = Done tt /\ outbox (snd r) = outbox b /\ calls (snd r) = calls b /\
   world (snd r) = world b /\ users (snd r) = users b) /\
  (message update = Some "" ->
   r = (call_result tg (ReplyText "Пустой текст" None) b,
        after_call tg (ReplyText "Пустой текст" None) b)) /\
  (forall text,
      message update = Some text ->
      (5000 < String.length text)%nat ->
      r = (call_result tg (ReplyText "Слишком длинный текст (>5000)" None) b,
           after_call tg (ReplyText "Слишком длинный текст (>5000)" None) b)).
Proof.
  intros r. subst r. split; [| split].
  - intros Hmsg. unfold on_text, lift, synthesize_speech.
    rewrite Hmsg. simpl. auto.
  - intros Hmsg.
    rewrite (on_text_invalid cfg net tg update "" b Hmsg).
    + reflexivity.
    + intros [Hne _]. now apply Hne.
  - intros text Hmsg Hlong.
    rewrite (on_text_invalid cfg net tg update text b Hmsg).
    + destruct (String.eqb_spec text "") as [-> | _]; [| reflexivity].
      simpl in Hlong. lia.
    + intros [_ Hlen]. lia.
Qed.

(** X19. When every attempt of the synthesis fails, the user is sent the
    one fixed text "Сервис перегружен, попробуйте позже." in one call of
    the transport, whatever the statuses and errors were; nothing is
    stored and the cache is not touched. *)
Theorem text_failure_reply (update : Update) (text : string) (b : Bot) :
  message update = Some text ->
  valid_text text ->
  let user_id := match effective_user update with
                 | Some u => u
                 | None => 0
                 end in
  let voice_id :=
    resolve_voice_id (users b) user_id (default_voice_id (base cfg)) in
  let req := tts_request (base cfg) text voice_id (audio_format cfg) in
  all_attempts_fail (verdicts net (served (world b)) req 4) = true ->
  let r := on_text cfg net tg update b in
  let reply := ReplyText overloaded_text None in
  fst r = (if tg (calls b) reply then Done tt else Failed TelegramError) /\
  outbox (snd r) = outbox b ++ (if tg (calls b) reply then [reply] else []) /\
  calls (snd r) = S (calls b) /\
  users (snd r) = users b /\
  cache (world (snd r)) = cache (world b).
Proof.
  intros Hmsg Hvalid user_id voice_id req Hfail r reply. subst r.
  apply all_attempts_fail_iff in Hfail.
  destruct (on_text_valid cfg net tg update text b Hmsg Hvalid)
    as (w' & _ & _ & Hcache & Hrun).
  cbv zeta in Hrun. fold user_id voice_id in Hrun. fold req in Hrun.
  rewrite Hfail in Hrun. rewrite Hrun, tg_call_run.
  unfold call_result, after_call, with_world. simpl. fold reply.
  repeat split; auto.
  destruct (tg (calls b) reply); [reflexivity | now rewrite app_nil_r].
Qed.

(** X20. When an attempt of the synthesis succeeds and the transport takes
    both messages, the user gets the audio (a voice message when
    [send_as] is "voice", an audio message otherwise) and then the same
    bytes as the file [tts_<voice>_<length of the text>.mp3]; the handler
    then waits 0.05 seconds. *)
Theorem text_success_delivery
  (update : Update) (text : string) (b : Bot) (resp : Response) :
  message update = Some text ->
  valid_text text ->
  let user_id := match effective_user update with
                 | Some u => u
                 | None => 0
                 end in
  let voice_id :=
    resolve_voice_id (users b) user_id (default_voice_id (base cfg)) in
  let req := tts_request (base cfg) text voice_id (audio_format cfg) in
  success_of (verdicts net (served (world b)) req 4) = Some resp ->
  let first := first_message cfg (content resp) in
  let file :=
    ReplyDocument (content resp)
      ("tts_" ++ voice_id ++ "_"
       ++ str_of_int (Z.of_nat (String.length text)) ++ ".mp3")
      ("Файл: " ++ voice_id) in
  tg (calls b) first = true ->
  tg (S (calls b)) file = true ->
  let r := on_text cfg net tg update b in
  exists w' : World,
    synthesize_speech (base cfg) net text voice_id (audio_format cfg)
      (world b)
    = (Ok (content resp), w') /\
    fst r = Done tt /\
    outbox (snd r) = outbox b ++ [first; file] /\
    calls (snd r) = S (S (calls b)) /\
    clock (world (snd r)) = (clock w' + (1 # 20))%Q.
Proof.
  intros Hmsg Hvalid user_id voice_id req Hsucc first file Hfirst Hfile r.
  subst r.
  destruct (on_text_valid cfg net tg update text b Hmsg Hvalid)
    as (w' & _ & _ & _ & Hrun).
  cbv zeta in Hrun. fold user_id voice_id in Hrun. fold req in Hrun.
  rewrite Hsucc in Hrun.
  destruct (synthesize_speech_run (base cfg) net text voice_id
              (audio_format cfg) (world b) Hvalid)
    as (w1 & _ & _ & _ & Hsyn).
  cbv zeta in Hsyn. fold req in Hsyn. rewrite Hsucc in Hsyn.
  exists w1. split; [exact Hsyn |].
  unfold on_text, lift. rewrite Hmsg. fold user_id. fold voice_id.
  rewrite Hsyn. unfold bindH.
  rewrite (deliver_ok cfg tg (content resp) voice_id text);
    [| exact Hfirst | exact Hfile].
  unfold asyncio_sleep. cbn [fst snd calls outbox world users clock].
  auto.
Qed.

(** X21. The delivery of lines 117-141 touches nothing but the
    transport; when it ends normally the last message sent is the file or
    the apology, and it raises only when the apology itself, its last
    call, is refused.  When the first message went through and the file
    did not, the audio is sent once more before the file. *)
Theorem delivery_fallbacks
  (audio : list Byte.byte) (voice_id text : string) (b : Bot) :
  let r := deliver cfg tg audio voice_id text b in
  let first := first_message cfg audio in
  let again := ReplyAudio audio "TTS" "tts.mp3" in
  let file := tts_document audio voice_id text in
  let apology := ReplyText undelivered_text None in
  world (snd r) = world b /\
  users (snd r) = users b /\
  (fst r = Done tt ->
   last (outbox (snd r)) Answer = file \/
   last (outbox (snd r)) Answer = apology) /\
  (forall e, fst r = Failed e ->
             e = TelegramError /\
             tg (Nat.pred (calls (snd r))) apology = false) /\
  (tg (calls b) first = true ->
   tg (S (calls b)) file = false ->
   tg (S (S (calls b))) again = true ->
   tg (S (S (S (calls b)))) file = true ->
   fst r = Done tt /\
   outbox (snd r) = outbox b ++ [first; again; file]).
Proof.
  intros r first again file apology.
  split; [apply deliver_keeps_world |].
  split; [apply deliver_keeps_world |].
  subst r. unfold deliver, try_catch_all, bindH.
  replace (if String.eqb (send_as cfg) "voice"
           then tg_call tg (ReplyVoice audio)
           else tg_call tg (ReplyAudio audio "TTS" "tts.mp3"))
    with (tg_call tg first)
    by (subst first; unfold first_message;
        destruct (String.eqb (send_as cfg) "voice"); reflexivity).
  change (ReplyAudio audio "TTS" "tts.mp3") with again.
  change (tts_document audio voice_id text) with file.
  change (ReplyText "Не удалось отправить аудио. Попробуйте позже." None)
    with apology.
  clearbody first again file apology.
  repeat (rewrite tg_call_run; unfold call_result, after_call;
          cbn [calls outbox world users fst snd];
          match goal with
          | |- context [if tg ?n ?o then _ else _] =>
              destruct (tg n o) eqn:?
          end;
          cbn [calls outbox world users fst snd]).
  all: split; [| split].
  all: try (intros e H; discriminate H).
  all: try (intros e H; injection H as <-;
            split; [reflexivity | cbn [Nat.pred]; assumption]).
  all: try (intros H; discriminate H).
  all: try (intros H; rewrite last_last; auto).
  all: intros H1 H2 H3 H4; try congruence.
  split; [reflexivity |]. now rewrite <- !app_assoc.
Qed.

End TextClaims.

Section StartClaims.

Import Main voice Spec Handlers More.

Variable cfg : BotSettings.
Variable net : nat -> Request -> Exchange.
Variable tg : nat -> Outgoing -> bool.
Variable py_str : pyval -> string.

(** X22. The start command with a message calls [get_voices] and, with
    the list it returns, replies in one call of the transport with the
    keyboard of page 0; as long as the cache holds no empty list, that
    keyboard has between one and eight voice rows, the first for the first
    voice, and ends with a navigation row that has the "refresh" button
    and no "previous" button.  An exception that [get_voices] raises
    leaves the handler and nothing is sent.  The voice command is the same
    handler. *)
Theorem start_keyboard (update : Update) (m : string) (b : Bot) :
  value (cache (world b)) <> Some [] ->
  message update = Some m ->
  let r := cmd_start cfg net tg py_str update b in
  cmd_voice cfg net tg py_str update b = r /\
  match get_voices (base cfg) net (world b) with
  | (Ok v, w') =>
      exists first : Voice,
        hd_error v = Some first /\
        let kb := keyboard py_str v 0 in
        let reply := ReplyText "Выберите голос:" (Some kb) in
        fst r = (if tg (calls b) reply then Done tt
                 else Failed TelegramError) /\
        outbox (snd r)
        = outbox b ++ (if tg (calls b) reply then [reply] else []) /\
        world (snd r) = w' /\
        (2 <= length kb <= 9)%nat /\
        hd_error kb = Some (pick_row py_str first) /\
        In refresh_button (last kb []) /\
        ~ In (prev_button 0) (last kb [])
  | (Raise e, w') => r = (Failed (VoiceExn e), with_world b w')
  end.
Proof.
  intros Hinv Hmsg r. subst r.
  split; [reflexivity |].
  pose proof (get_voices_result_nonempty cfg net (world b) Hinv) as Hne.
  unfold cmd_start, bindH. rewrite lift_run.
  destruct (get_voices (base cfg) net (world b)) as [[v | e] w'];
    cbn [fst snd]; [| reflexivity].
  specialize (Hne v w' eq_refl).
  destruct v as [| first v]; [contradiction |].
  exists first. split; [reflexivity |].
  rewrite paginate_run, Hmsg. cbn [fst].
  set (kb := keyboard py_str (first :: v) 0).
  set (reply := ReplyText "Выберите голос:" (Some kb)).
  rewrite tg_call_run.
  unfold call_result, after_call, with_world. cbn [fst snd calls outbox world].
  split; [reflexivity |].
  split; [destruct (tg (calls b) reply);
          [reflexivity | now rewrite app_nil_r] |].
  split; [reflexivity |].
  assert (Hslice : page_voices (first :: v) 0 8 = first :: firstn 7 v).
  { rewrite page_voices_nonneg by lia. reflexivity. }
  subst kb. unfold keyboard. rewrite Hslice. cbn [map app hd_error].
  split.
  { cbn [length]. rewrite length_app, length_map, length_firstn.
    cbn [length]. lia. }
  split; [reflexivity |].
  rewrite app_comm_cons, last_last.
  split; [apply nav_row_refresh |].
  rewrite nav_row_prev. lia.
Qed.

End StartClaims.

(** ** Concrete runs of the further properties *)

Section FurtherRuns.

Import Main voice Spec Sample Handlers More.

Lemma valid_hi : valid_text "hi".
Proof. split; [discriminate | simpl; lia]. Defined.

Lemma decimal_int_str (n : Z) : decimal_int (str_of_int n) = Some n.
Proof.
  unfold decimal_int, str_of_int.
  rewrite NilZero.isi.
  - simpl. now rewrite DecimalZ.of_to.
  - destruct n; simpl; try discriminate.
    intros [= H]. now apply DecimalPos.Unsigned.to_uint_nonnil in H.
  - destruct n; simpl; try discriminate.
    intros [= H]. now apply DecimalPos.Unsigned.to_uint_nonnil in H.
Qed.

(** Page 0 of nine voices is full. *)
Lemma paginate_row_count_witness :
  0 < 8 /\ Z.of_nat (length (page_voices nine_voices 0 8)) = 8.
Proof.
  split; [lia |].
  destruct (paginate_row_count py_str nine_voices 0 8 ltac:(lia))
    as (buttons & total & Hrun & _ & _ & Hfull).
  apply Hfull; [lia |].
  rewrite paginate_ok in Hrun by lia. injection Hrun as _ <-.
  vm_compute. reflexivity.
Defined.

(** The ninth of nine voices is the first of page 1. *)
Lemma voice_on_its_page_witness :
  nth_error (page_voices nine_voices 1 8) 0 = Some (voice_named "i").
Proof.
  exact (proj1 (voice_on_its_page nine_voices 8 8 ltac:(lia)
                  ltac:(simpl; lia))).
Defined.

(** Page 1 of nine voices is not blank. *)
Lemma navigation_stays_in_range_witness :
  page_voices nine_voices 1 8 <> [].
Proof.
  destruct (navigation_stays_in_range nine_voices 1 8 ltac:(lia))
    as (_ & _ & _ & Hfull).
  - vm_compute. split; [discriminate | reflexivity].
  - apply Hfull. discriminate.
Defined.

(** 200 without entries: the fallback, stored. *)
Lemma empty_directory_is_cached_witness :
  exists w1 : World,
    get_voices settings net_empty initial_world
    = (Ok (fallback settings), w1) /\
    value (cache w1) = Some (fallback settings).
Proof.
  destruct (empty_directory_is_cached settings net_empty initial_world
              {| status_code := 200; json := Some empty_body;
                 content := [] |})
    as (w1 & Hrun & Hvalue & _).
  - reflexivity.
  - reflexivity.
  - reflexivity.
  - exists w1. split; [exact Hrun | exact Hvalue].
Defined.

(** 503 on every request: the list returned has an element. *)
Lemma get_voices_never_empty_witness :
  fst (get_voices settings net_503 initial_world) = Ok (fallback settings) /\
  fallback settings <> [].
Proof.
  split; [reflexivity |].
  destruct (get_voices_never_empty settings net_503 initial_world)
    as [_ Hne].
  - discriminate.
  - apply (Hne (fallback settings)
             (snd (get_voices settings net_503 initial_world))).
    vm_compute. reflexivity.
Defined.

(** 503, a timeout, then 200: three requests, the voices of the third. *)
Lemma retried_then_success_witness :
  exists w' : World,
    get_voices settings net_503_timeout_ok initial_world
    = (voices_of_body settings (Some two_entries), w') /\
    served w' = 3%nat.
Proof.
  destruct (proj1 (retried_then_success settings net_503_timeout_ok)
              initial_world 2%nat ok_response) as (w' & Hrun & Hserved & _).
  - reflexivity.
  - lia.
  - intros i Hi. destruct i as [| [| i]]; try reflexivity. lia.
  - reflexivity.
  - reflexivity.
  - exists w'. split; [exact Hrun | exact Hserved].
Defined.

(** 503 on every request: four requests, then the end. *)
Lemma retries_exhausted_witness :
  (exists w' : World,
      get_voices settings net_503 initial_world
      = (Ok (fallback settings), w') /\ served w' = 4%nat) /\
  (exists w' : World,
      synthesize_speech settings net_503 "hi" "v1" "mp3" initial_world
      = (Raise (VoiceServiceError generic_message), w') /\
      served w' = 4%nat).
Proof.
  split.
  - destruct (proj1 (retries_exhausted settings net_503) initial_world)
      as (w' & Hrun & _ & Hserved & _).
    + reflexivity.
    + intros i Hi. reflexivity.
    + exists w'. split; [exact Hrun | exact Hserved].
  - destruct (proj2 (retries_exhausted settings net_503) "hi" "v1" "mp3"
                initial_world) as (w' & Hrun & Hserved & _).
    + exact valid_hi.
    + intros i Hi. reflexivity.
    + exists w'. split; [exact Hrun | exact Hserved].
Defined.

(** 503 on every request: within the budget of 3.5 seconds. *)
Lemma sleep_budget_witness :
  exists events : list Event,
    trace (snd (synthesize_speech settings net_503 "hi" "v1" "mp3"
                  initial_world)) = [] ++ events /\
    (slept_total events <= 7 # 2)%Q.
Proof.
  destruct (proj2 (sleep_budget settings net_503) "hi" "v1" "mp3"
              initial_world) as (events & Htrace & Hle & _).
  exists events. split; [exact Htrace | exact Hle].
Defined.


(** A second user stores a voice. *)
Lemma user_state_store_witness :
  state_get (state_set [(1, "a")] 2 "b") 2 = Some "b" /\
  length (state_set [(1, "a")] 2 "b") = 2%nat.
Proof.
  destruct (user_state_store [(1, "a")] 2 "b") as (Hget & _ & _ & Hlen & _).
  - repeat constructor. simpl. tauto.
  - split; [exact Hget | exact Hlen].
Defined.

(** User 1 presses [pick:v2]. *)
Lemma callback_pick_stores_voice_witness :
  users (snd (on_callback cfg_voice net_ok tg_ok py_str decimal_int
                (press "pick:v2" 1) initial_bot))
  = [(1, "v2")].
Proof.
  exact (proj1 (callback_pick_stores_voice cfg_voice net_ok tg_ok py_str
                  decimal_int (press "pick:v2" 1) initial_bot "v2"
                  eq_refl eq_refl)).
Defined.

(** User 1 presses the button of the voice "a". *)
Lemma pick_button_selects_its_voice_witness :
  state_get
    (users (snd (on_callback cfg_voice net_ok tg_ok py_str decimal_int
                   (press "pick:a" 1) initial_bot))) 1
  = Some "a".
Proof.
  exact (proj2 (pick_button_selects_its_voice cfg_voice net_ok tg_ok py_str
                  decimal_int (voice_named "a")
                  (mkButton (PStr "a") "pick:a")
                  (press "pick:a" 1) initial_bot
                  (or_introl eq_refl) eq_refl eq_refl)).
Defined.

(** User 1 picks v2, then sends "hi": the request is for v2. *)
Lemma picked_voice_is_used_witness :
  exists rest,
    trace (world (snd (on_text cfg_voice net_ok tg_ok (text_from 1 "hi")
                         (snd (on_callback cfg_voice net_ok tg_ok py_str
                                 decimal_int (press "pick:v2" 1)
                                 initial_bot)))))
    = [] ++ Sent (tts_request settings "hi" "v2" "mp3") :: rest.
Proof.
  exact (proj1 (picked_voice_is_used cfg_voice net_ok tg_ok py_str
                  decimal_int (press "pick:v2" 1) initial_bot "v2" "hi"
                  (text_from 1 "hi") eq_refl eq_refl eq_refl valid_hi)
           eq_refl).
Defined.

(** [page:x] raises; [page:1] edits when the provider answers 200 with
    voices, and raises when it answers 200 with an array. *)
Lemma callback_page_shows_page_witness :
  fst (on_callback cfg_voice net_ok tg_ok py_str decimal_int
         (press "page:x" 1) initial_bot) = Failed ValueError /\
  fst (on_callback cfg_voice net_ok tg_ok py_str decimal_int
         (press "page:1" 1) initial_bot) = Done tt /\
  fst (on_callback cfg_voice net_array_body tg_ok py_str decimal_int
         (press "page:1" 1) initial_bot) = Failed (VoiceExn AttributeError).
Proof.
  split; [| split].
  - exact (proj1 (proj1 (callback_page_shows_page cfg_voice net_ok tg_ok
                           py_str decimal_int (press "page:x" 1)
                           initial_bot "x" eq_refl eq_refl) eq_refl)).
  - pose proof (proj2 (callback_page_shows_page cfg_voice net_ok tg_ok
                         py_str decimal_int (press "page:1" 1)
                         initial_bot "1" eq_refl eq_refl) 1 eq_refl)
      as (_ & _ & Hcase).
    destruct (get_voices (base cfg_voice) net_ok (world initial_bot))
      as [[v | e] w'] eqn:Hget; cbn [fst] in Hcase.
    + exact (proj1 Hcase).
    + vm_compute in Hget. discriminate Hget.
  - pose proof (proj2 (callback_page_shows_page cfg_voice net_array_body
                         tg_ok py_str decimal_int (press "page:1" 1)
                         initial_bot "1" eq_refl eq_refl) 1 eq_refl)
      as (_ & _ & Hcase).
    destruct (get_voices (base cfg_voice) net_array_body (world initial_bot))
      as [[v | e] w'] eqn:Hget; cbn [fst] in Hcase.
    + vm_compute in Hget. discriminate Hget.
    + vm_compute in Hget. injection Hget as <- _. exact (proj1 Hcase).
Defined.

(** The "next" button of page 0 shows page 1. *)
Lemma navigation_buttons_turn_pages_witness :
  exists (v : list Voice) (w' : World),
    get_voices settings net_ok initial_world = (Ok v, w') /\
    outbox (snd (on_callback cfg_voice net_ok tg_ok py_str decimal_int
                   (press "page:1" 1) initial_bot))
    = [Answer; EditMarkup (keyboard py_str v 1)].
Proof.
  pose proof (proj1 (navigation_buttons_turn_pages cfg_voice net_ok tg_ok
                       py_str decimal_int (press "page:1" 1) initial_bot 0
                       decimal_int_str eq_refl) eq_refl) as Hcase.
  destruct (get_voices (base cfg_voice) net_ok (world initial_bot))
    as [[v | e] w'] eqn:Hget.
  - exists v, w'. split; [exact Hget |].
    rewrite Hcase. reflexivity.
  - vm_compute in Hget. discriminate Hget.
Defined.

(** The edit of a refresh is refused: the handler still ends normally. *)
Lemma callback_refresh_swallows_edit_failure_witness :
  fst (on_callback cfg_voice net_ok tg_second_fails py_str decimal_int
         (press "refresh" 1) initial_bot) = Done tt.
Proof.
  pose proof (callback_refresh_swallows_edit_failure cfg_voice net_ok
                tg_second_fails py_str decimal_int (press "refresh" 1)
                initial_bot eq_refl eq_refl) as (_ & _ & Hcase).
  destruct (get_voices (base cfg_voice) net_ok (world initial_bot))
    as [[v | e] w'] eqn:Hget; cbn [fst] in Hcase.
  - exact (proj1 Hcase).
  - vm_compute in Hget. discriminate Hget.
Defined.

(** The answer is refused; an unknown payload is only answered. *)
Lemma callback_edges_witness :
  fst (on_callback cfg_voice net_ok tg_down py_str decimal_int
         (press "pick:v2" 1) initial_bot) = Failed TelegramError /\
  outbox (snd (on_callback cfg_voice net_ok tg_ok py_str decimal_int
                 (press "hello" 1) initial_bot)) = [Answer].
Proof.
  split.
  - exact (proj1 (proj1 (callback_edges cfg_voice net_ok tg_down py_str
                           decimal_int (press "pick:v2" 1) initial_bot)
                    eq_refl)).
  - destruct (proj2 (callback_edges cfg_voice net_ok tg_ok py_str
                       decimal_int (press "hello" 1) initial_bot))
      as (_ & _ & _ & Hout).
    + reflexivity.
    + reflexivity.
    + discriminate.
    + reflexivity.
    + exact Hout.
Defined.

(** The empty text and a text of 5001 characters. *)
Lemma text_invalid_reply_witness :
  outbox (snd (on_text cfg_voice net_ok tg_ok (text_from 1 "") initial_bot))
  = [ReplyText "Пустой текст" None] /\
  outbox (snd (on_text cfg_voice net_ok tg_ok
                 (text_from 1 (a_times (S 5000))) initial_bot))
  = [ReplyText "Слишком длинный текст (>5000)" None].
Proof.
  split.
  - rewrite (proj1 (proj2 (text_invalid_reply cfg_voice net_ok tg_ok
                             (text_from 1 "") initial_bot)) eq_refl).
    reflexivity.
  - rewrite (proj2 (proj2 (text_invalid_reply cfg_voice net_ok tg_ok
                             (text_from 1 (a_times (S 5000))) initial_bot))
               (a_times (S 5000)) eq_refl).
    + reflexivity.
    + rewrite a_times_length. lia.
Defined.

(** 400 from the provider: the fixed text. *)
Lemma text_failure_reply_witness :
  outbox (snd (on_text cfg_voice net_400 tg_ok (text_from 1 "hi")
                 initial_bot))
  = [ReplyText overloaded_text None].
Proof.
  destruct (text_failure_reply cfg_voice net_400 tg_ok (text_from 1 "hi")
              "hi" initial_bot eq_refl valid_hi eq_refl)
    as (_ & Hout & _).
  exact Hout.
Defined.

(** 200 from the provider: the voice message and the file. *)
Lemma text_success_delivery_witness :
  outbox (snd (on_text cfg_voice net_ok tg_ok (text_from 1 "hi")
                 initial_bot))
  = [ReplyVoice [Byte.x49; Byte.x44; Byte.x33];
     ReplyDocument [Byte.x49; Byte.x44; Byte.x33] "tts_v0_2.mp3"
       "Файл: v0"].
Proof.
  destruct (text_success_delivery cfg_voice net_ok tg_ok (text_from 1 "hi")
              "hi" initial_bot ok_response eq_refl valid_hi eq_refl
              eq_refl eq_refl)
    as (w' & _ & _ & Hout & _).
  exact Hout.
Defined.

(** The file is refused once: the audio goes out twice. *)
Lemma delivery_fallbacks_witness :
  outbox (snd (deliver cfg_voice tg_second_fails [Byte.x49] "v0" "hi"
                 initial_bot))
  = [ReplyVoice [Byte.x49]; ReplyAudio [Byte.x49] "TTS" "tts.mp3";
     tts_document [Byte.x49] "v0" "hi"].
Proof.
  destruct (delivery_fallbacks cfg_voice tg_second_fails [Byte.x49] "v0"
              "hi" initial_bot) as (_ & _ & _ & _ & Htwice).
  exact (proj2 (Htwice eq_refl eq_refl eq_refl eq_refl)).
Defined.

(** The start command against a provider that answers 200. *)
Lemma start_keyboard_witness :
  exists (v : list Voice) (w' : World),
    get_voices settings net_ok initial_world = (Ok v, w') /\
    outbox (snd (cmd_start cfg_voice net_ok tg_ok py_str (text_from 1 "/start")
                   initial_bot))
    = [ReplyText "Выберите голос:" (Some (keyboard py_str v 0))].
Proof.
  destruct (start_keyboard cfg_voice net_ok tg_ok py_str
              (text_from 1 "/start") "/start" initial_bot)
    as [_ Hcase].
  - discriminate.
  - reflexivity.
  - destruct (get_voices (base cfg_voice) net_ok (world initial_bot))
      as [[v | e] w'] eqn:Hget.
    + destruct Hcase as (first & _ & _ & Hout & _).
      exists v, w'. split; [exact Hget | exact Hout].
    + vm_compute in Hget. discriminate Hget.
Defined.

End FurtherRuns.
